(** * Purebred Pet Matchmaking API: swipe-and-match reconciliation

    A shallow embedding of [main.py] and [schemas.py].  The document
    store is a record of collections, each an insertion-ordered list of
    documents; every endpoint is a computation in a state-and-error
    monad in which a raised [HTTPException] keeps the writes made
    before it. *)

From Stdlib Require Import List Bool Arith NArith ZArith Lia Ascii String.
From Stdlib Require Import Sorting.Sorted Sorting.Permutation.
Import ListNotations.

Local Open Scope string_scope.

(** ** Errors and results *)

(** [HTTPException(status_code=..., detail=...)]. *)
Inductive HTTPError : Type :=
| HTTPException (status_code : nat) (detail : string).

Inductive Result (A : Type) : Type :=
| Ok (a : A)
| Raise (e : HTTPError).

Arguments Ok {A} a.
Arguments Raise {A} e.

Definition status_of (e : HTTPError) : nat :=
  match e with HTTPException s _ => s end.

(** ** Object identifiers

    [bson.ObjectId] built from a [str]: the constructor accepts a
    24-character hexadecimal string, digits in either case, and raises
    on anything else.  An identifier is kept as the number its digits
    denote; [str] prints 24 lower-case digits. *)

Module ObjectId.

Local Open Scope N_scope.

Definition t : Type := N.

Definition hex_digit (c : ascii) : option N :=
  let n := N_of_ascii c in
  if (48 <=? n) && (n <=? 57) then Some (n - 48)
  else if (97 <=? n) && (n <=? 102) then Some (n - 87)
  else if (65 <=? n) && (n <=? 70) then Some (n - 55)
  else None.

Fixpoint hex_value (s : string) (acc : N) : option N :=
  match s with
  | EmptyString => Some acc
  | String c s' =>
      match hex_digit c with
      | Some d => hex_value s' (16 * acc + d)
      | None => None
      end
  end.

Definition of_string (s : string) : option t :=
  if Nat.eqb (String.length s) 24 then hex_value s 0 else None.

Definition hex_char (d : N) : ascii :=
  if d <? 10 then ascii_of_N (48 + d) else ascii_of_N (87 + d).

Fixpoint hex_of (k : nat) (n : N) (acc : string) : string :=
  match k with
  | O => acc
  | S k' => hex_of k' (n / 16) (String (hex_char (n mod 16)) acc)
  end.

Definition str (i : t) : string := hex_of 24 i "".

End ObjectId.

(** [oid] of main.py: wrap the constructor, turning any failure into a
    400. *)
Definition oid (id_str : string) : Result ObjectId.t :=
  match ObjectId.of_string id_str with
  | Some i => Ok i
  | None => Raise (HTTPException 400 "Invalid id format")
  end.

(** ** Schemas (schemas.py)

    The optional float coordinates of Owner and Pet are carried by the
    store untouched and read by no endpoint; they are left out. *)

Inductive Species : Type := dog | cat.
Inductive Gender : Type := male | female.
Inductive Action : Type := like | pass.
Inductive AnnouncementType : Type := breeding | event.
Inductive VerificationType : Type := photo | pedigree_doc.
Inductive VerificationStatus : Type := pending | approved | rejected.

Record Owner : Type := mkOwner {
  owner_name : string;
  email : string;
  owner_city : option string;
  premium : bool;
  owner_verified : bool
}.

Record Pet : Type := mkPet {
  owner_id : string;
  species : Species;
  name : string;
  breed : string;
  age : nat;
  gender : Gender;
  pedigree : bool;
  photos : list string;
  videos : list string;
  personality : list string;
  preferences : list string;
  city : option string;
  verified : bool
}.

Record Like : Type := mkLike {
  liker_pet_id : string;
  target_pet_id : string;
  action : Action;
  created_by_owner_id : string
}.

Record Match : Type := mkMatch {
  pet_a_id : string;
  pet_b_id : string;
  owner_a_id : string;
  owner_b_id : string
}.

Record Message : Type := mkMessage {
  match_id : string;
  sender_pet_id : string;
  sender_owner_id : string;
  text : string
}.

Record Announcement : Type := mkAnnouncement {
  ann_owner_id : string;
  ann_pet_id : option string;
  ann_species : Species;
  title : string;
  description : string;
  ann_city : option string;
  date : option string;
  ann_type : AnnouncementType
}.

Record Verification : Type := mkVerification {
  ver_pet_id : string;
  ver_type : VerificationType;
  ver_status : VerificationStatus;
  document_url : option string
}.

(** [SendMessage] of main.py, the body of POST /messages. *)
Record SendMessage : Type := mkSendMessage {
  sm_match_id : string;
  sm_sender_pet_id : string;
  sm_sender_owner_id : string;
  sm_text : string
}.

Definition Action_eqb (a b : Action) : bool :=
  match a, b with
  | like, like | pass, pass => true
  | _, _ => false
  end.

Definition Species_eqb (a b : Species) : bool :=
  match a, b with
  | dog, dog | cat, cat => true
  | _, _ => false
  end.

Definition Gender_eqb (a b : Gender) : bool :=
  match a, b with
  | male, male | female, female => true
  | _, _ => false
  end.

(** ** The document store *)

(** A stored document: the generated [_id], the creation time and the
    fields of the model. *)
Record Doc (A : Type) : Type := mkDoc {
  _id : ObjectId.t;
  created_at : N;
  body : A
}.

Arguments mkDoc {A} _ _ _.
Arguments _id {A} d.
Arguments created_at {A} d.
Arguments body {A} d.

(** A document as an endpoint returns it: [_id] popped and replaced by
    the string [id]. *)
Record Row (A : Type) : Type := mkRow {
  id : string;
  row_created_at : N;
  row_body : A
}.

Arguments mkRow {A} _ _ _.
Arguments id {A} r.
Arguments row_created_at {A} r.
Arguments row_body {A} r.

Definition with_id {A : Type} (d : Doc A) : Row A :=
  mkRow (ObjectId.str (_id d)) (created_at d) (body d).

(** The database: one list per collection in insertion order, the next
    identifier the server hands out, and the wall clock. *)
Record DB : Type := mkDB {
  owners : list (Doc Owner);
  pets : list (Doc Pet);
  likes : list (Doc Like);
  matches : list (Doc Match);
  messages : list (Doc Message);
  announcements : list (Doc Announcement);
  verifications : list (Doc Verification);
  next_id : N;
  clock : N
}.

(** Collection names, and the model stored under each. *)
Inductive Collection : Type :=
| c_owner
| c_pet
| c_like
| c_match
| c_message
| c_announcement
| c_verification.

Definition Model (c : Collection) : Type :=
  match c with
  | c_owner => Owner
  | c_pet => Pet
  | c_like => Like
  | c_match => Match
  | c_message => Message
  | c_announcement => Announcement
  | c_verification => Verification
  end.

(** [db[name]] *)
Definition coll (c : Collection) (db : DB) : list (Doc (Model c)) :=
  match c return list (Doc (Model c)) with
  | c_owner => owners db
  | c_pet => pets db
  | c_like => likes db
  | c_match => matches db
  | c_message => messages db
  | c_announcement => announcements db
  | c_verification => verifications db
  end.

(** [db[name].insert_one(doc)]: append. *)
Definition insert_one (c : Collection) (d : Doc (Model c)) (db : DB) : DB :=
  match c return Doc (Model c) -> DB with
  | c_owner => fun d =>
      mkDB (owners db ++ [d]) (pets db) (likes db) (matches db) (messages db)
           (announcements db) (verifications db) (next_id db) (clock db)
  | c_pet => fun d =>
      mkDB (owners db) (pets db ++ [d]) (likes db) (matches db) (messages db)
           (announcements db) (verifications db) (next_id db) (clock db)
  | c_like => fun d =>
      mkDB (owners db) (pets db) (likes db ++ [d]) (matches db) (messages db)
           (announcements db) (verifications db) (next_id db) (clock db)
  | c_match => fun d =>
      mkDB (owners db) (pets db) (likes db) (matches db ++ [d]) (messages db)
           (announcements db) (verifications db) (next_id db) (clock db)
  | c_message => fun d =>
      mkDB (owners db) (pets db) (likes db) (matches db) (messages db ++ [d])
           (announcements db) (verifications db) (next_id db) (clock db)
  | c_announcement => fun d =>
      mkDB (owners db) (pets db) (likes db) (matches db) (messages db)
           (announcements db ++ [d]) (verifications db) (next_id db) (clock db)
  | c_verification => fun d =>
      mkDB (owners db) (pets db) (likes db) (matches db) (messages db)
           (announcements db) (verifications db ++ [d]) (next_id db) (clock db)
  end d.

Definition bump_id (db : DB) : DB :=
  mkDB (owners db) (pets db) (likes db) (matches db) (messages db)
       (announcements db) (verifications db) (N.succ (next_id db)) (clock db).

Definition empty_db : DB := mkDB [] [] [] [] [] [] [] 0%N 0%N.

(** ** The handler monad

    A handler reads and writes the store and either returns or raises;
    what it wrote before raising stays written. *)

Definition M (A : Type) : Type := DB -> DB * Result A.

Definition ret {A : Type} (a : A) : M A := fun db => (db, Ok a).

Definition raise {A : Type} (e : HTTPError) : M A := fun db => (db, Raise e).

Definition bind {A B : Type} (m : M A) (k : A -> M B) : M B :=
  fun db =>
    match m db with
    | (db', Ok a) => k a db'
    | (db', Raise e) => (db', Raise e)
    end.

Definition lift {A : Type} (r : Result A) : M A := fun db => (db, r).

Notation "x <- m ;; k" := (bind m (fun x => k))
  (at level 61, m at next level, right associativity).

(** [db[name].find_one(filter)]: the first document the filter
    accepts, [None] when there is none. *)
Definition find_one (c : Collection) (q : Doc (Model c) -> bool)
  : M (option (Doc (Model c))) :=
  fun db => (db, Ok (List.find q (coll c db))).

(** [db[name].find(filter)] read out with [list(...)]. *)
Definition find_all (c : Collection) (q : Doc (Model c) -> bool)
  : M (list (Doc (Model c))) :=
  fun db => (db, Ok (List.filter q (coll c db))).

(** Modelled from the spec: [create_document] of database.py, which is
    not among the sources.  The spec has every entity persisted as an
    independent record with a generated unique identifier and a
    creation time, and the callers use the returned value as the id of
    the new record: the document is stamped, appended to its collection
    and the identifier returned as a string. *)
Definition create_document (c : Collection) (data : Model c) : M string :=
  fun db =>
    let d := mkDoc (next_id db) (clock db) data in
    (bump_id (insert_one c d db), Ok (ObjectId.str (next_id db))).

(** Modelled from the spec: [get_documents] of database.py, which is
    not among the sources.  The spec has the list endpoints cap their
    result size and silently truncate beyond the cap: the documents the
    filter accepts, cut after [limit]. *)
Definition get_documents (c : Collection) (q : Doc (Model c) -> bool)
  (limit : nat) : M (list (Doc (Model c))) :=
  fun db => (db, Ok (firstn limit (List.filter q (coll c db)))).

(** ** Swipes and matches *)

(** The two response shapes of POST /swipe:
    [{"status": "match", "match_id": id}] and
    [{"status": "recorded", "match": False}]. *)
Inductive SwipeResponse : Type :=
| StatusMatch (match_id : string)
| StatusRecorded.

Definition is_some {A : Type} (o : option A) : bool :=
  match o with Some _ => true | None => false end.

(** The filter of the mutual-like lookup. *)
Definition q_mutual (l : Like) (d : Doc Like) : bool :=
  String.eqb (liker_pet_id (body d)) (target_pet_id l)
  && String.eqb (target_pet_id (body d)) (liker_pet_id l)
  && Action_eqb (action (body d)) like.

(** The [$or] filter of the duplicate check. *)
Definition q_pair (l : Like) (d : Doc Match) : bool :=
  (String.eqb (pet_a_id (body d)) (liker_pet_id l)
   && String.eqb (pet_b_id (body d)) (target_pet_id l))
  || (String.eqb (pet_a_id (body d)) (target_pet_id l)
      && String.eqb (pet_b_id (body d)) (liker_pet_id l)).

Definition q_id {A : Type} (i : ObjectId.t) (d : Doc A) : bool :=
  N.eqb (_id d) i.

(** The second half of [swipe], from the comment "check for mutual
    like" to the end of the function. *)
Definition check_mutual_like (l : Like) : M SwipeResponse :=
  mutual <- find_one c_like (q_mutual l) ;;
  if Action_eqb (action l) like && is_some mutual then
    liker_oid <- lift (oid (liker_pet_id l)) ;;
    liker_pet <- find_one c_pet (q_id liker_oid) ;;
    target_oid <- lift (oid (target_pet_id l)) ;;
    target_pet <- find_one c_pet (q_id target_oid) ;;
    match liker_pet, target_pet with
    | Some lp, Some tp =>
        exists_ <- find_one c_match (q_pair l) ;;
        match exists_ with
        | None =>
            match_id <- create_document c_match
              (mkMatch (liker_pet_id l) (target_pet_id l)
                       (owner_id (body lp)) (owner_id (body tp))) ;;
            ret (StatusMatch match_id)
        | Some _ => ret StatusRecorded
        end
    | _, _ => ret StatusRecorded
    end
  else ret StatusRecorded.

(** POST /swipe: the first half, under the comment "record like/pass",
    then the check. *)
Definition swipe (l : Like) : M SwipeResponse :=
  if String.eqb (liker_pet_id l) (target_pet_id l) then
    raise (HTTPException 400 "Cannot swipe your own pet")
  else
    _ <- create_document c_like l ;;
    check_mutual_like l.

(** GET /matches/{owner_id}: every match with the owner on either
    side, read straight off the cursor. *)
Definition q_owner (owner : string) (d : Doc Match) : bool :=
  String.eqb (owner_a_id (body d)) owner || String.eqb (owner_b_id (body d)) owner.

Definition list_matches (owner : string) : M (list (Row Match)) :=
  ms <- find_all c_match (q_owner owner) ;;
  ret (map with_id ms).

(** ** Messaging *)

Definition Message_of (payload : SendMessage) : Message :=
  mkMessage (sm_match_id payload) (sm_sender_pet_id payload)
            (sm_sender_owner_id payload) (sm_text payload).

Definition send_message (payload : SendMessage) : M string :=
  match_oid <- lift (oid (sm_match_id payload)) ;;
  m <- find_one c_match (q_id match_oid) ;;
  match m with
  | None => raise (HTTPException 404 "Match not found")
  | Some m =>
      if negb (String.eqb (sm_sender_owner_id payload) (owner_a_id (body m))
               || String.eqb (sm_sender_owner_id payload) (owner_b_id (body m)))
      then raise (HTTPException 403 "Not part of this match")
      else create_document c_message (Message_of payload)
  end.

(** [cursor.sort("created_at", 1)]: ascending by creation time, as a
    stable insertion sort. *)
Fixpoint insert_by_created_at {A : Type} (d : Doc A) (l : list (Doc A))
  : list (Doc A) :=
  match l with
  | [] => [d]
  | x :: xs =>
      if (created_at d <=? created_at x)%N then d :: x :: xs
      else x :: insert_by_created_at d xs
  end.

Fixpoint sort_by_created_at {A : Type} (l : list (Doc A)) : list (Doc A) :=
  match l with
  | [] => []
  | d :: ds => insert_by_created_at d (sort_by_created_at ds)
  end.

Definition q_match_id (mid : string) (d : Doc Message) : bool :=
  String.eqb (match_id (body d)) mid.

Definition get_messages (mid : string) : M (list (Row Message)) :=
  fun db =>
    (db, Ok (map with_id
               (sort_by_created_at (List.filter (q_match_id mid) (messages db))))).

(** ** Owners, pets, announcements, verification *)

(** POST /owners.  The handle [db] is taken as connected, so the
    conditional expression runs the lookup. *)
Definition create_owner (o : Owner) : M string :=
  existing <- find_one c_owner (fun d => String.eqb (email (body d)) (email o)) ;;
  if is_some existing then
    raise (HTTPException 409 "Owner with this email already exists")
  else create_document c_owner o.

Definition get_owner (owner : string) : M (Row Owner) :=
  i <- lift (oid owner) ;;
  doc <- find_one c_owner (q_id i) ;;
  match doc with
  | None => raise (HTTPException 404 "Owner not found")
  | Some d => ret (with_id d)
  end.

Definition create_pet (p : Pet) : M string :=
  i <- lift (oid (owner_id p)) ;;
  o <- find_one c_owner (q_id i) ;;
  if negb (is_some o) then raise (HTTPException 400 "Owner not found")
  else create_document c_pet p.

Definition create_announcement (ann : Announcement) : M string :=
  create_document c_announcement ann.

Definition request_verification (v : Verification) : M string :=
  create_document c_verification v.

(** Truthiness of an optional string parameter: present and not
    empty. *)
Definition truthy (o : option string) : bool :=
  match o with
  | Some s => negb (String.eqb s "")
  | None => false
  end.

Section Listing.

(** MongoDB's [$regex] with [$options: "i"]: whether the pattern
    finds a match in the subject. *)
Variable regex_i : string -> string -> bool.

Definition field_regex (pattern : string) (field : option string) : bool :=
  match field with
  | Some s => regex_i pattern s
  | None => false
  end.

(** The filter document [q] that [list_pets] builds, as the predicate
    it denotes: a key that is not set constrains nothing. *)
Definition q_pets (sp : Species) (breed_ : option string)
  (min_age max_age : option Z) (gender_ : option Gender)
  (pedigree_ : option bool) (city_ owner_id_ : option string)
  (d : Doc Pet) : bool :=
  Species_eqb (species (body d)) sp
  && (if truthy breed_
      then regex_i ("^" ++ match breed_ with Some b => b | None => "" end ++ "$")
                   (breed (body d))
      else true)
  && match min_age with Some lo => Z.leb lo (Z.of_nat (age (body d))) | None => true end
  && match max_age with Some hi => Z.leb (Z.of_nat (age (body d))) hi | None => true end
  && match gender_ with Some g => Gender_eqb (gender (body d)) g | None => true end
  && match pedigree_ with Some b => Bool.eqb (pedigree (body d)) b | None => true end
  && (if truthy city_
      then field_regex match city_ with Some c => c | None => "" end (city (body d))
      else true)
  && (if truthy owner_id_
      then String.eqb (owner_id (body d))
                      match owner_id_ with Some o => o | None => "" end
      else true).

Definition list_pets (sp : Species) (breed_ : option string)
  (min_age max_age : option Z) (gender_ : option Gender)
  (pedigree_ : option bool) (city_ owner_id_ : option string)
  : M (list (Row Pet)) :=
  ps <- get_documents c_pet
          (q_pets sp breed_ min_age max_age gender_ pedigree_ city_ owner_id_)
          100 ;;
  ret (map with_id ps).

Definition list_announcements (sp : option Species) : M (list (Row Announcement)) :=
  anns <- get_documents c_announcement
            (fun d => match sp with
                      | Some s => Species_eqb (ann_species (body d)) s
                      | None => true
                      end)
            100 ;;
  ret (map with_id anns).

(** GET /nearby: [lat], [lng] and [radius_km] are accepted and not
    used. *)
Definition nearby_pets (sp : Species) (city_ : option string)
  : M (list (Row Pet)) :=
  ps <- get_documents c_pet
          (fun d => Species_eqb (species (body d)) sp
                    && (if truthy city_
                        then field_regex match city_ with Some c => c | None => "" end
                                         (city (body d))
                        else true))
          200 ;;
  ret (map with_id ps).

End Listing.

(** ** Runs of the API

    The requests that write to the store, and the passing of time.
    The read endpoints leave the store as it is. *)
Inductive Event : Type :=
| POST_owners (o : Owner)
| POST_pets (p : Pet)
| POST_swipe (l : Like)
| POST_messages (payload : SendMessage)
| POST_announcements (ann : Announcement)
| POST_verification (v : Verification)
| Tick (dt : N).

Definition advance (dt : N) (db : DB) : DB :=
  mkDB (owners db) (pets db) (likes db) (matches db) (messages db)
       (announcements db) (verifications db) (next_id db) (clock db + dt)%N.

Definition step (e : Event) (db : DB) : DB :=
  match e with
  | POST_owners o => fst (create_owner o db)
  | POST_pets p => fst (create_pet p db)
  | POST_swipe l => fst (swipe l db)
  | POST_messages payload => fst (send_message payload db)
  | POST_announcements ann => fst (create_announcement ann db)
  | POST_verification v => fst (request_verification v db)
  | Tick dt => advance dt db
  end.

Definition run (es : list Event) (db : DB) : DB :=
  fold_left (fun s e => step e s) es db.

(** ** Predicates of the claims *)

(** The store holds a like of [a] for [b]. *)
Definition has_like (a b : string) (db : DB) : bool :=
  existsb (fun d => String.eqb (liker_pet_id (body d)) a
                    && String.eqb (target_pet_id (body d)) b
                    && Action_eqb (action (body d)) like) (likes db).

(** The pet a well-formed identifier string resolves to. *)
Definition resolve_pet (id_str : string) (db : DB) : option (Doc Pet) :=
  match ObjectId.of_string id_str with
  | Some i => List.find (q_id i) (pets db)
  | None => None
  end.

(** A match record is about the unordered pair [{a, b}]. *)
Definition same_pair (a b : string) (d : Doc Match) : bool :=
  (String.eqb (pet_a_id (body d)) a && String.eqb (pet_b_id (body d)) b)
  || (String.eqb (pet_a_id (body d)) b && String.eqb (pet_b_id (body d)) a).

Definition match_count (a b : string) (db : DB) : nat :=
  List.length (List.filter (same_pair a b) (matches db)).

(** The data-model invariant of Like: no stored like points a pet at
    itself. *)
Definition no_self_like (db : DB) : bool :=
  forallb (fun d => negb (String.eqb (liker_pet_id (body d)) (target_pet_id (body d))))
          (likes db).


(** ** A worked run

    Two owners, a pet each, and the swipes of the end-to-end scenario;
    the stores below are the ones the examples are evaluated on. *)
Module Scenario.

Definition O1 : string := ObjectId.str 0%N.
Definition O2 : string := ObjectId.str 1%N.
Definition P1 : string := ObjectId.str 2%N.
Definition P2 : string := ObjectId.str 3%N.

Definition owner1 : Owner := mkOwner "Ann" "ann@example.org" None false false.
Definition owner2 : Owner := mkOwner "Bob" "bob@example.org" None false false.

Definition a_dog (owner : string) (nm : string) : Pet :=
  mkPet owner dog nm "Akita" 3 male true [] [] [] [] None false.

(** Owners and pets registered, nobody has swiped. *)
Definition registered : DB :=
  run [POST_owners owner1; POST_owners owner2;
       POST_pets (a_dog O1 "Rex"); POST_pets (a_dog O2 "Fido")] empty_db.

Definition like_1_2 : Like := mkLike P1 P2 like O1.
Definition like_2_1 : Like := mkLike P2 P1 like O2.
Definition pass_2_1 : Like := mkLike P2 P1 pass O2.
Definition like_1_1 : Like := mkLike P1 P1 like O1.

(** P1 has liked P2. *)
Definition one_sided : DB := run [POST_swipe like_1_2] registered.

(** P2 has liked P1 back: the match is on record. *)
Definition matched : DB := run [POST_swipe like_2_1] one_sided.

(** The whole end-to-end scenario, the repeated like included. *)
Definition history : list Event :=
  [POST_owners owner1; POST_owners owner2;
   POST_pets (a_dog O1 "Rex"); POST_pets (a_dog O2 "Fido");
   POST_swipe like_1_2; POST_swipe like_2_1; POST_swipe like_1_2].

(** The match created in [matched]. *)
Definition M12 : string := ObjectId.str 6%N.

(** A well-formed identifier no pet carries, and a string that is not
    an identifier. *)
Definition ghost : string := ObjectId.str 4095%N.
Definition rex : string := "rex".

(** P2 has liked the two of them. *)
Definition likes_ghost : DB := run [POST_swipe (mkLike P2 ghost like O2)] registered.
Definition likes_rex : DB := run [POST_swipe (mkLike P2 rex like O2)] registered.

Definition like_ghost_2 : Like := mkLike ghost P2 like O1.
Definition like_rex_2 : Like := mkLike rex P2 like O1.

(** The string that is not an identifier has liked P1. *)
Definition liked_by_rex : DB := run [POST_swipe (mkLike rex P1 like O2)] registered.
Definition like_1_rex : Like := mkLike P1 rex like O1.

(** The two Pet documents of [registered]. *)
Definition pet1 : Doc Pet := mkDoc 2%N 0%N (a_dog O1 "Rex").
Definition pet2 : Doc Pet := mkDoc 3%N 0%N (a_dog O2 "Fido").

Definition hello (sender : string) (mid : string) : SendMessage :=
  mkSendMessage mid P1 sender "hello".





(** P1 passes on P2 some time after liking it. *)
Definition pass_1_2 : Like := mkLike P1 P2 pass O1.
Definition second_thoughts : list Event := [Tick 5%N; POST_swipe pass_1_2].

(** The first message on the match. *)
Definition greeted : DB := run [Tick 3%N; POST_messages (hello O1 M12)] matched.

(** 201 messages on the one match. *)
Definition chatty : DB :=
  run (repeat (POST_messages (hello O1 M12)) 201) matched.

(** One pet of owner 1 matched with 201 pets of owner 2. *)
Definition nth_pet (k : nat) : string := ObjectId.str (N.of_nat (3 + k)).

Definition popular : DB :=
  run ([POST_owners owner1; POST_owners owner2; POST_pets (a_dog O1 "Rex")]
       ++ map (fun k => POST_pets (a_dog O2 "Pup")) (seq 0 201)
       ++ flat_map (fun k => [POST_swipe (mkLike (nth_pet k) P1 like O2);
                              POST_swipe (mkLike P1 (nth_pet k) like O1)])
                   (seq 0 201))%list
      empty_db.

End Scenario.

(** ** Predicates on stores *)

(** [l'] is [l] with documents appended. *)
Definition prefix_of {A : Type} (l l' : list A) : Prop :=
  exists t : list A, l' = (l ++ t)%list.

(** Every collection of [db'] is the one of [db] with documents
    appended. *)
Definition extends (db db' : DB) : Prop :=
  prefix_of (owners db) (owners db')
  /\ prefix_of (pets db) (pets db')
  /\ prefix_of (likes db) (likes db')
  /\ prefix_of (matches db) (matches db')
  /\ prefix_of (messages db) (messages db')
  /\ prefix_of (announcements db) (announcements db')
  /\ prefix_of (verifications db) (verifications db').

Definition resolve_owner (id_str : string) (db : DB) : option (Doc Owner) :=
  match ObjectId.of_string id_str with
  | Some i => List.find (q_id i) (owners db)
  | None => None
  end.

Definition resolve_match (id_str : string) (db : DB) : option (Doc Match) :=
  match ObjectId.of_string id_str with
  | Some i => List.find (q_id i) (matches db)
  | None => None
  end.

(** No two owners share an email. *)
Definition emails_distinct (db : DB) : Prop :=
  NoDup (map (fun d => email (body d)) (owners db)).

(** Every pet names an owner that is in the store. *)
Definition pets_have_owners (db : DB) : bool :=
  forallb (fun p => is_some (resolve_owner (owner_id (body p)) db)) (pets db).

(** No match carries one string as both of its pet ids. *)
Definition matches_distinct_ids (db : DB) : bool :=
  forallb (fun m => negb (String.eqb (pet_a_id (body m)) (pet_b_id (body m))))
          (matches db).

(** Every match has a like on record in each direction. *)
Definition matches_backed_by_likes (db : DB) : bool :=
  forallb (fun m => has_like (pet_a_id (body m)) (pet_b_id (body m)) db
                    && has_like (pet_b_id (body m)) (pet_a_id (body m)) db)
          (matches db).

(** The pet [pid] resolves and belongs to [owner]. *)
Definition pet_owned_by (pid owner : string) (db : DB) : bool :=
  match resolve_pet pid db with
  | Some p => String.eqb (owner_id (body p)) owner
  | None => false
  end.

(** Every match carries the owner ids of the pets its pet ids resolve
    to. *)
Definition matches_carry_owners (db : DB) : bool :=
  forallb (fun m => pet_owned_by (pet_a_id (body m)) (owner_a_id (body m)) db
                    && pet_owned_by (pet_b_id (body m)) (owner_b_id (body m)) db)
          (matches db).

(** Every message is on a match in the store and from one of its two
    owners. *)
Definition messages_from_participants (db : DB) : bool :=
  forallb (fun msg =>
             match resolve_match (match_id (body msg)) db with
             | Some m =>
                 String.eqb (sender_owner_id (body msg)) (owner_a_id (body m))
                 || String.eqb (sender_owner_id (body msg)) (owner_b_id (body m))
             | None => false
             end)
          (messages db).

(** The identifiers in use, over all collections, and the store
    having handed out only identifiers below [next_id]. *)
Definition all_ids (db : DB) : list ObjectId.t :=
  (map _id (owners db) ++ map _id (pets db) ++ map _id (likes db)
   ++ map _id (matches db) ++ map _id (messages db)
   ++ map _id (announcements db) ++ map _id (verifications db))%list.

Definition ids_below (db : DB) : bool :=
  forallb (fun i => (i <? next_id db)%N) (all_ids db).



(** The store once the swipe is on record. *)
Definition recorded (l : Like) (db : DB) : DB :=
  fst (create_document c_like l db).

(** Ascending creation time. *)
Definition by_created_at {A : Type} (d1 d2 : Doc A) : Prop :=
  (created_at d1 <= created_at d2)%N.

(** * Properties *)

Local Open Scope list_scope.

(** ** Lists and lookups *)

Lemma find_app {A : Type} (f : A -> bool) (xs ys : list A) :
  List.find f (xs ++ ys) =
  match List.find f xs with
  | Some x => Some x
  | None => List.find f ys
  end.
Proof.
  induction xs as [|x xs IH]; simpl; [reflexivity|].
  destruct (f x); [reflexivity | exact IH].
Qed.

Lemma is_some_find {A : Type} (f : A -> bool) (xs : list A) :
  is_some (List.find f xs) = existsb f xs.
Proof.
  induction xs as [|x xs IH]; simpl; [reflexivity|].
  destruct (f x); simpl; [reflexivity | exact IH].
Qed.

Lemma find_none_existsb {A : Type} (f : A -> bool) (xs : list A) :
  List.find f xs = None <-> existsb f xs = false.
Proof.
  rewrite <- is_some_find. destruct (List.find f xs); simpl; split; congruence.
Qed.

Lemma filter_nil_existsb {A : Type} (f : A -> bool) (xs : list A) :
  List.length (List.filter f xs) = 0 <-> existsb f xs = false.
Proof.
  induction xs as [|x xs IH]; simpl; [tauto|].
  destruct (f x); simpl; [split; discriminate | exact IH].
Qed.


(** ** The pair predicates *)

Lemma q_pair_same_pair (l : Like) (d : Doc Match) :
  q_pair l d = same_pair (liker_pet_id l) (target_pet_id l) d.
Proof. reflexivity. Qed.

Lemma same_pair_sym (a b : string) (d : Doc Match) :
  same_pair a b d = same_pair b a d.
Proof. unfold same_pair. apply orb_comm. Qed.


Lemma match_count_zero (a b : string) (db : DB) :
  match_count a b db = 0 <-> List.find (same_pair a b) (matches db) = None.
Proof.
  unfold match_count. rewrite filter_nil_existsb. symmetry. apply find_none_existsb.
Qed.

Lemma has_like_find (l : Like) (db : DB) :
  is_some (List.find (q_mutual l) (likes db))
  = has_like (target_pet_id l) (liker_pet_id l) db.
Proof. apply is_some_find. Qed.

Lemma has_like_distinct (a b : string) (db : DB) :
  no_self_like db = true -> has_like a b db = true -> a <> b.
Proof.
  unfold no_self_like, has_like. intros Hwf Hex Heq. subst b.
  apply existsb_exists in Hex as (d & Hin & Hd).
  rewrite forallb_forall in Hwf. specialize (Hwf d Hin).
  apply andb_true_iff in Hd as [Hd _].
  apply andb_true_iff in Hd as [H1 H2].
  apply String.eqb_eq in H1, H2.
  rewrite H1, H2, String.eqb_refl in Hwf. discriminate.
Qed.

(** ** What [swipe] computes *)

Lemma recorded_likes (l : Like) (db : DB) :
  likes (recorded l db) = likes db ++ [mkDoc (next_id db) (clock db) l].
Proof. reflexivity. Qed.

(** The swipe just recorded is never its own reverse. *)
Lemma mutual_after_record (l : Like) (db : DB) :
  liker_pet_id l <> target_pet_id l ->
  List.find (q_mutual l) (likes (recorded l db)) = List.find (q_mutual l) (likes db).
Proof.
  intros Hne. rewrite recorded_likes, find_app.
  destruct (List.find (q_mutual l) (likes db)); [reflexivity|].
  simpl. unfold q_mutual; simpl.
  destruct (String.eqb_spec (liker_pet_id l) (target_pet_id l)); [contradiction|].
  reflexivity.
Qed.

(** [swipe] on two distinct pets, branch by branch, in terms of the
    store it started from. *)
Lemma swipe_eq (l : Like) (db : DB) :
  liker_pet_id l <> target_pet_id l ->
  swipe l db =
  if Action_eqb (action l) like && has_like (target_pet_id l) (liker_pet_id l) db
  then
    match ObjectId.of_string (liker_pet_id l) with
    | None => (recorded l db, Raise (HTTPException 400 "Invalid id format"))
    | Some li =>
        match ObjectId.of_string (target_pet_id l) with
        | None => (recorded l db, Raise (HTTPException 400 "Invalid id format"))
        | Some ti =>
            match List.find (q_id li) (pets db), List.find (q_id ti) (pets db) with
            | Some lp, Some tp =>
                match List.find (same_pair (liker_pet_id l) (target_pet_id l))
                                (matches db) with
                | Some _ => (recorded l db, Ok StatusRecorded)
                | None =>
                    (fst (create_document c_match
                            (mkMatch (liker_pet_id l) (target_pet_id l)
                                     (owner_id (body lp)) (owner_id (body tp)))
                            (recorded l db)),
                     Ok (StatusMatch (ObjectId.str (N.succ (next_id db)))))
                end
            | _, _ => (recorded l db, Ok StatusRecorded)
            end
        end
    end
  else (recorded l db, Ok StatusRecorded).
Proof.
  intros Hne. unfold swipe.
  destruct (String.eqb_spec (liker_pet_id l) (target_pet_id l)) as [|_]; [contradiction|].
  unfold bind at 1. change (create_document c_like l db)
    with (recorded l db, @Ok string (ObjectId.str (next_id db))).
  cbv iota beta.
  unfold check_mutual_like, bind at 1, find_one at 1.
  cbv beta iota delta [coll Model].
  rewrite (mutual_after_record l db Hne), has_like_find.
  destruct (Action_eqb (action l) like && has_like (target_pet_id l) (liker_pet_id l) db);
    [|reflexivity].
  unfold bind, lift, oid, find_one.
  destruct (ObjectId.of_string (liker_pet_id l)) as [li|]; [|reflexivity].
  destruct (ObjectId.of_string (target_pet_id l)) as [ti|];
    [|reflexivity].
  cbv beta iota delta [coll Model].
  change (pets (recorded l db)) with (pets db).
  destruct (List.find (q_id li) (pets db)) as [lp|]; [|reflexivity].
  destruct (List.find (q_id ti) (pets db)) as [tp|]; [|reflexivity].
  change (matches (recorded l db)) with (matches db).
  change (q_pair l) with (same_pair (liker_pet_id l) (target_pet_id l)).
  destruct (List.find (same_pair (liker_pet_id l) (target_pet_id l)) (matches db));
    reflexivity.
Qed.

(** ** Frame: what each write leaves alone *)

Lemma create_owner_frame (o : Owner) (db : DB) :
  matches (fst (create_owner o db)) = matches db
  /\ likes (fst (create_owner o db)) = likes db.
Proof.
  unfold create_owner, bind, find_one.
  destruct (is_some _); split; reflexivity.
Qed.

Lemma create_pet_frame (p : Pet) (db : DB) :
  matches (fst (create_pet p db)) = matches db
  /\ likes (fst (create_pet p db)) = likes db.
Proof.
  unfold create_pet, bind, lift, find_one.
  destruct (oid (owner_id p)); [|split; reflexivity].
  destruct (negb _); split; reflexivity.
Qed.

Lemma send_message_frame (payload : SendMessage) (db : DB) :
  matches (fst (send_message payload db)) = matches db
  /\ likes (fst (send_message payload db)) = likes db.
Proof.
  unfold send_message, bind, lift, find_one.
  destruct (oid (sm_match_id payload)); [|split; reflexivity].
  destruct (List.find _ _); [|split; reflexivity].
  destruct (negb _); split; reflexivity.
Qed.

Lemma swipe_likes (l : Like) (db : DB) :
  liker_pet_id l <> target_pet_id l ->
  likes (fst (swipe l db)) = likes db ++ [mkDoc (next_id db) (clock db) l].
Proof.
  intros Hne. rewrite (swipe_eq l db Hne).
  destruct (_ && _); [|reflexivity].
  destruct (ObjectId.of_string (liker_pet_id l)); [|reflexivity].
  destruct (ObjectId.of_string (target_pet_id l)); [|reflexivity].
  destruct (List.find _ (pets db)); [|reflexivity].
  destruct (List.find _ (pets db)); [|reflexivity].
  destruct (List.find _ (matches db)); reflexivity.
Qed.

Lemma swipe_self (l : Like) (db : DB) :
  liker_pet_id l = target_pet_id l ->
  swipe l db = (db, Raise (HTTPException 400 "Cannot swipe your own pet")).
Proof.
  intros Heq. unfold swipe. rewrite Heq, String.eqb_refl. reflexivity.
Qed.

(** The read endpoints return the store they were given. *)
Lemma reads_frame (regex_i : string -> string -> bool) (db : DB) :
  (forall owner, fst (get_owner owner db) = db)
  /\ (forall sp breed_ min_age max_age gender_ pedigree_ city_ owner_id_,
         fst (list_pets regex_i sp breed_ min_age max_age gender_ pedigree_
                        city_ owner_id_ db) = db)
  /\ (forall owner, fst (list_matches owner db) = db)
  /\ (forall mid, fst (get_messages mid db) = db)
  /\ (forall sp, fst (list_announcements sp db) = db)
  /\ (forall sp city_, fst (nearby_pets regex_i sp city_ db) = db).
Proof.
  repeat split; intros; try reflexivity.
  unfold get_owner, bind, lift, find_one.
  destruct (oid owner); [|reflexivity].
  destruct (List.find _ _); reflexivity.
Qed.

(** ** Invariants of a run *)

Lemma swipe_no_self_like (l : Like) (db : DB) :
  no_self_like db = true -> no_self_like (fst (swipe l db)) = true.
Proof.
  intros Hwf.
  destruct (String.eqb_spec (liker_pet_id l) (target_pet_id l)) as [Heq|Hne].
  - rewrite (swipe_self l db Heq). exact Hwf.
  - unfold no_self_like. rewrite (swipe_likes l db Hne), forallb_app.
    fold (no_self_like db). rewrite Hwf. simpl.
    destruct (String.eqb_spec (liker_pet_id l) (target_pet_id l)); [contradiction|].
    reflexivity.
Qed.

Lemma step_no_self_like (e : Event) (db : DB) :
  no_self_like db = true -> no_self_like (step e db) = true.
Proof.
  intros Hwf. destruct e; simpl.
  - unfold no_self_like. rewrite (proj2 (create_owner_frame o db)). exact Hwf.
  - unfold no_self_like. rewrite (proj2 (create_pet_frame p db)). exact Hwf.
  - apply swipe_no_self_like, Hwf.
  - unfold no_self_like. rewrite (proj2 (send_message_frame payload db)). exact Hwf.
  - exact Hwf.
  - exact Hwf.
  - exact Hwf.
Qed.

Lemma run_no_self_like (es : list Event) (db : DB) :
  no_self_like db = true -> no_self_like (run es db) = true.
Proof.
  revert db. induction es as [|e es IH]; intros db Hwf; simpl; [exact Hwf|].
  apply IH, step_no_self_like, Hwf.
Qed.

Lemma match_count_snoc (a b : string) (m : Doc Match) (ms : list (Doc Match)) :
  List.length (List.filter (same_pair a b) (ms ++ [m]))
  = List.length (List.filter (same_pair a b) ms)
    + (if same_pair a b m then 1 else 0).
Proof.
  rewrite filter_app, length_app. simpl.
  destruct (same_pair a b m); reflexivity.
Qed.




(** ** The match path *)

Lemma resolve_pet_some (s : string) (db : DB) (p : Doc Pet) :
  resolve_pet s db = Some p ->
  exists i, ObjectId.of_string s = Some i /\ List.find (q_id i) (pets db) = Some p.
Proof.
  unfold resolve_pet. destruct (ObjectId.of_string s) as [i|]; [|discriminate].
  intros H. exists i. split; [reflexivity | exact H].
Qed.

(** Every hypothesis of the match path, read back from a response that
    reports a match. *)
Lemma status_match_inv (l : Like) (db : DB) (mid : string) :
  snd (swipe l db) = Ok (StatusMatch mid) ->
  liker_pet_id l <> target_pet_id l
  /\ action l = like
  /\ has_like (target_pet_id l) (liker_pet_id l) db = true
  /\ (exists lp tp, resolve_pet (liker_pet_id l) db = Some lp
                    /\ resolve_pet (target_pet_id l) db = Some tp)
  /\ match_count (liker_pet_id l) (target_pet_id l) db = 0
  /\ mid = ObjectId.str (N.succ (next_id db)).
Proof.
  destruct (String.eqb_spec (liker_pet_id l) (target_pet_id l)) as [Heq|Hne].
  { rewrite (swipe_self l db Heq). discriminate. }
  rewrite (swipe_eq l db Hne). unfold resolve_pet.
  destruct (action l); simpl; [|discriminate].
  destruct (has_like _ _ db); [|discriminate].
  destruct (ObjectId.of_string (liker_pet_id l)); [|discriminate].
  destruct (ObjectId.of_string (target_pet_id l)); [|discriminate].
  destruct (List.find _ (pets db)) as [lp|]; [|discriminate].
  destruct (List.find _ (pets db)) as [tp|]; [|discriminate].
  destruct (List.find _ (matches db)) eqn:Hdup; [discriminate|].
  simpl. intros H. injection H as <-.
  repeat split; try assumption; try reflexivity.
  - exists lp, tp. split; reflexivity.
  - apply match_count_zero, Hdup.
Qed.

(** C1.  A like that meets a reverse like, with both pets resolving and
    no match on record for the pair in either orientation, appends
    exactly one Match: pet_a is the liker, pet_b the target, the owner
    ids are those of the two resolved Pet records; the response is
    [{status: match, match_id}] with the id of that record.  Conversely
    a response that reports a match comes from this path only.  The
    store is one whose likes obey the Like invariant of the data model
    ([no_self_like], which [run_no_self_like] shows every run keeps). *)
Theorem swipe_mutual_like_creates_match (db : DB) (l : Like) :
  (forall lp tp : Doc Pet,
      no_self_like db = true ->
      action l = like ->
      has_like (target_pet_id l) (liker_pet_id l) db = true ->
      resolve_pet (liker_pet_id l) db = Some lp ->
      resolve_pet (target_pet_id l) db = Some tp ->
      match_count (liker_pet_id l) (target_pet_id l) db = 0 ->
      let m := mkDoc (N.succ (next_id db)) (clock db)
                     (mkMatch (liker_pet_id l) (target_pet_id l)
                              (owner_id (body lp)) (owner_id (body tp))) in
      snd (swipe l db) = Ok (StatusMatch (ObjectId.str (_id m)))
      /\ matches (fst (swipe l db)) = matches db ++ [m])
  /\ (forall mid : string,
         snd (swipe l db) = Ok (StatusMatch mid) ->
         action l = like
         /\ has_like (target_pet_id l) (liker_pet_id l) db = true
         /\ (exists lp tp, resolve_pet (liker_pet_id l) db = Some lp
                           /\ resolve_pet (target_pet_id l) db = Some tp)
         /\ match_count (liker_pet_id l) (target_pet_id l) db = 0).
Proof.
  split.
  - intros lp tp Hwf Hact Hrev Hlp Htp Hnone m.
    pose proof (has_like_distinct _ _ db Hwf Hrev) as Hne.
    assert (Hne' : liker_pet_id l <> target_pet_id l) by congruence.
    apply resolve_pet_some in Hlp as (li & Hli & Hfl).
    apply resolve_pet_some in Htp as (ti & Hti & Hft).
    apply match_count_zero in Hnone.
    rewrite (swipe_eq l db Hne'), Hact, Hrev, Hli, Hti, Hfl, Hft, Hnone.
    split; reflexivity.
  - intros mid H. apply status_match_inv in H. tauto.
Qed.


(** C3.  A pass between two distinct pets is answered
    [{status: recorded, match: false}] and leaves the match collection
    unchanged, whatever likes are on record. *)
Theorem pass_never_matches (db : DB) (l : Like) :
  action l = pass ->
  liker_pet_id l <> target_pet_id l ->
  snd (swipe l db) = Ok StatusRecorded
  /\ matches (fst (swipe l db)) = matches db.
Proof.
  intros Hact Hne. rewrite (swipe_eq l db Hne), Hact. split; reflexivity.
Qed.

(** C4.  A swipe whose liker and target are the same pet raises a 400,
    whatever its action, and the store, the like collection with it, is
    untouched. *)
Theorem self_swipe_rejected (db : DB) (l : Like) :
  liker_pet_id l = target_pet_id l ->
  snd (swipe l db) = Raise (HTTPException 400 "Cannot swipe your own pet")
  /\ fst (swipe l db) = db
  /\ likes (fst (swipe l db)) = likes db.
Proof.
  intros Heq. rewrite (swipe_self l db Heq). repeat split.
Qed.

(** C5.  A swipe between two distinct pets appends a Like document
    carrying exactly the submitted fields, whatever the action and
    whatever the call goes on to return or raise, and the mutual-like
    check runs on the store that already holds it. *)
Theorem swipe_records_first (db : DB) (l : Like) :
  liker_pet_id l <> target_pet_id l ->
  swipe l db = check_mutual_like l (recorded l db)
  /\ likes (recorded l db) = likes db ++ [mkDoc (next_id db) (clock db) l]
  /\ likes (fst (swipe l db)) = likes db ++ [mkDoc (next_id db) (clock db) l].
Proof.
  intros Hne. split; [|split].
  - unfold swipe.
    destruct (String.eqb_spec (liker_pet_id l) (target_pet_id l)); [contradiction|].
    reflexivity.
  - reflexivity.
  - apply swipe_likes, Hne.
Qed.

(** ** Pets that do not resolve *)

(** Both identifiers parse and one of the lookups comes back empty:
    the soft fail. *)
Lemma swipe_missing_pet (db : DB) (l : Like) (li ti : ObjectId.t) :
  liker_pet_id l <> target_pet_id l ->
  ObjectId.of_string (liker_pet_id l) = Some li ->
  ObjectId.of_string (target_pet_id l) = Some ti ->
  List.find (q_id li) (pets db) = None \/ List.find (q_id ti) (pets db) = None ->
  swipe l db = (recorded l db, Ok StatusRecorded).
Proof.
  intros Hne Hli Hti Hmiss. rewrite (swipe_eq l db Hne), Hli, Hti.
  destruct (_ && _); [|reflexivity].
  destruct Hmiss as [H|H]; rewrite H; [reflexivity|].
  destruct (List.find (q_id li) (pets db)); reflexivity.
Qed.

(** One identifier does not parse: [oid] raises once the like is
    written. *)
Lemma swipe_malformed_id (db : DB) (l : Like) :
  liker_pet_id l <> target_pet_id l ->
  action l = like ->
  has_like (target_pet_id l) (liker_pet_id l) db = true ->
  ObjectId.of_string (liker_pet_id l) = None
  \/ ObjectId.of_string (target_pet_id l) = None ->
  swipe l db = (recorded l db, Raise (HTTPException 400 "Invalid id format")).
Proof.
  intros Hne Hact Hrev Hbad. rewrite (swipe_eq l db Hne), Hact, Hrev. simpl.
  destruct Hbad as [H|H]; rewrite H; [reflexivity|].
  destruct (ObjectId.of_string (liker_pet_id l)); reflexivity.
Qed.

Lemma recorded_neq (l : Like) (db : DB) : recorded l db <> db.
Proof.
  intros H. apply (f_equal next_id) in H. simpl in H. lia.
Qed.

(** C6, as amended.  A like that meets a reverse like, with both pet
    ids well-formed identifier strings and at least one of them
    resolving to no Pet, is answered [{status: recorded, match: false}]
    without raising, and creates no match (on a store that obeys the
    Like invariant [no_self_like]). *)
Theorem missing_pet_soft_fail (db : DB) (l : Like) (li ti : ObjectId.t) :
  no_self_like db = true ->
  action l = like ->
  has_like (target_pet_id l) (liker_pet_id l) db = true ->
  ObjectId.of_string (liker_pet_id l) = Some li ->
  ObjectId.of_string (target_pet_id l) = Some ti ->
  resolve_pet (liker_pet_id l) db = None \/ resolve_pet (target_pet_id l) db = None ->
  snd (swipe l db) = Ok StatusRecorded
  /\ matches (fst (swipe l db)) = matches db.
Proof.
  intros Hwf Hact Hrev Hli Hti Hmiss.
  pose proof (has_like_distinct _ _ db Hwf Hrev) as Hne.
  assert (Hne' : liker_pet_id l <> target_pet_id l) by congruence.
  unfold resolve_pet in Hmiss. rewrite Hli, Hti in Hmiss.
  rewrite (swipe_missing_pet db l li ti Hne' Hli Hti Hmiss).
  split; reflexivity.
Qed.

(** C10.  A like that meets a reverse like while one of its two pet
    ids is not a well-formed identifier string raises 400 "Invalid id
    format"; by then the Like document is in the store and it stays
    there, so the store has changed.  With both ids well formed and a
    pet missing, the same call returns
    [{status: recorded, match: false}] instead.  The store obeys the
    Like invariant [no_self_like]. *)
Theorem malformed_id_raises_after_recording (db : DB) (l : Like) :
  no_self_like db = true ->
  action l = like ->
  has_like (target_pet_id l) (liker_pet_id l) db = true ->
  (ObjectId.of_string (liker_pet_id l) = None
   \/ ObjectId.of_string (target_pet_id l) = None ->
   snd (swipe l db) = Raise (HTTPException 400 "Invalid id format")
   /\ likes (fst (swipe l db)) = likes db ++ [mkDoc (next_id db) (clock db) l]
   /\ fst (swipe l db) <> db)
  /\ (forall li ti : ObjectId.t,
         ObjectId.of_string (liker_pet_id l) = Some li ->
         ObjectId.of_string (target_pet_id l) = Some ti ->
         List.find (q_id li) (pets db) = None
         \/ List.find (q_id ti) (pets db) = None ->
         snd (swipe l db) = Ok StatusRecorded).
Proof.
  intros Hwf Hact Hrev.
  pose proof (has_like_distinct _ _ db Hwf Hrev) as Hne.
  assert (Hne' : liker_pet_id l <> target_pet_id l) by congruence.
  split.
  - intros Hbad. rewrite (swipe_malformed_id db l Hne' Hact Hrev Hbad).
    repeat split. apply recorded_neq.
  - intros li ti Hli Hti Hmiss.
    rewrite (swipe_missing_pet db l li ti Hne' Hli Hti Hmiss). reflexivity.
Qed.

(** ** The messaging guard *)

(** [send_message], branch by branch. *)
Lemma send_message_eq (payload : SendMessage) (db : DB) :
  send_message payload db =
  match ObjectId.of_string (sm_match_id payload) with
  | None => (db, Raise (HTTPException 400 "Invalid id format"))
  | Some i =>
      match List.find (q_id i) (matches db) with
      | None => (db, Raise (HTTPException 404 "Match not found"))
      | Some m =>
          if String.eqb (sm_sender_owner_id payload) (owner_a_id (body m))
             || String.eqb (sm_sender_owner_id payload) (owner_b_id (body m))
          then create_document c_message (Message_of payload) db
          else (db, Raise (HTTPException 403 "Not part of this match"))
      end
  end.
Proof.
  unfold send_message, bind, lift, oid, find_one.
  destruct (ObjectId.of_string (sm_match_id payload)) as [i|]; [|reflexivity].
  cbv beta iota delta [coll Model].
  destruct (List.find (q_id i) (matches db)) as [m|]; [|reflexivity].
  destruct (_ || _); reflexivity.
Qed.

(** C7, as amended.  A send-message request whose match id is not a
    well-formed identifier string raises 400 and creates no Message.
    With a well-formed id: no Match under that id raises 404; a Match
    whose two owner ids both differ from the sender raises 403; in both
    cases no Message is created.  Otherwise one Message carrying the
    payload is appended and its id returned, whatever the sender pet
    id is. *)
Theorem send_message_guard (payload : SendMessage) (db : DB) :
  (ObjectId.of_string (sm_match_id payload) = None ->
   send_message payload db = (db, Raise (HTTPException 400 "Invalid id format")))
  /\ (forall i : ObjectId.t,
         ObjectId.of_string (sm_match_id payload) = Some i ->
         List.find (q_id i) (matches db) = None ->
         send_message payload db = (db, Raise (HTTPException 404 "Match not found")))
  /\ (forall (i : ObjectId.t) (m : Doc Match),
         ObjectId.of_string (sm_match_id payload) = Some i ->
         List.find (q_id i) (matches db) = Some m ->
         sm_sender_owner_id payload <> owner_a_id (body m) ->
         sm_sender_owner_id payload <> owner_b_id (body m) ->
         send_message payload db
         = (db, Raise (HTTPException 403 "Not part of this match")))
  /\ (forall (i : ObjectId.t) (m : Doc Match),
         ObjectId.of_string (sm_match_id payload) = Some i ->
         List.find (q_id i) (matches db) = Some m ->
         sm_sender_owner_id payload = owner_a_id (body m)
         \/ sm_sender_owner_id payload = owner_b_id (body m) ->
         snd (send_message payload db) = Ok (ObjectId.str (next_id db))
         /\ messages (fst (send_message payload db))
            = messages db
              ++ [mkDoc (next_id db) (clock db)
                        (mkMessage (sm_match_id payload) (sm_sender_pet_id payload)
                                   (sm_sender_owner_id payload) (sm_text payload))]).
Proof.
  rewrite send_message_eq. split; [|split; [|split]].
  - intros ->. reflexivity.
  - intros i -> ->. reflexivity.
  - intros i m -> -> Ha Hb.
    apply String.eqb_neq in Ha, Hb. rewrite Ha, Hb. reflexivity.
  - intros i m -> -> Ho.
    assert (Hin : String.eqb (sm_sender_owner_id payload) (owner_a_id (body m))
                  || String.eqb (sm_sender_owner_id payload) (owner_b_id (body m))
                  = true).
    { apply orb_true_iff. destruct Ho as [Ho|Ho]; [left|right];
        apply String.eqb_eq, Ho. }
    rewrite Hin. split; reflexivity.
Qed.

(** ** Message retrieval *)

Lemma insert_by_created_at_perm {A : Type} (d : Doc A) (l : list (Doc A)) :
  Permutation (insert_by_created_at d l) (d :: l).
Proof.
  induction l as [|x xs IH]; simpl; [apply Permutation_refl|].
  destruct (created_at d <=? created_at x)%N; [apply Permutation_refl|].
  apply perm_trans with (x :: d :: xs); [apply perm_skip, IH | apply perm_swap].
Qed.

Lemma sort_by_created_at_perm {A : Type} (l : list (Doc A)) :
  Permutation (sort_by_created_at l) l.
Proof.
  induction l as [|d ds IH]; simpl; [apply perm_nil|].
  apply perm_trans with (d :: sort_by_created_at ds);
    [apply insert_by_created_at_perm | apply perm_skip, IH].
Qed.

Lemma insert_by_created_at_sorted {A : Type} (d : Doc A) (l : list (Doc A)) :
  StronglySorted by_created_at l ->
  StronglySorted by_created_at (insert_by_created_at d l).
Proof.
  induction 1 as [|x xs Hxs IH Hall]; simpl.
  - constructor; constructor.
  - destruct (N.leb_spec (created_at d) (created_at x)) as [Hle|Hgt].
    + constructor; [constructor; assumption|].
      constructor; [exact Hle|].
      eapply Forall_impl; [|exact Hall].
      intros y Hy. unfold by_created_at in *. lia.
    + constructor; [exact IH|].
      eapply Permutation_Forall;
        [apply Permutation_sym, insert_by_created_at_perm|].
      constructor; [unfold by_created_at; lia | exact Hall].
Qed.

Lemma sort_by_created_at_sorted {A : Type} (l : list (Doc A)) :
  StronglySorted by_created_at (sort_by_created_at l).
Proof.
  induction l as [|d ds IH]; simpl; [constructor|].
  apply insert_by_created_at_sorted, IH.
Qed.

Lemma with_id_sorted {A : Type} (l : list (Doc A)) :
  StronglySorted by_created_at l ->
  StronglySorted (fun r1 r2 : Row A => (row_created_at r1 <= row_created_at r2)%N)
                 (map with_id l).
Proof.
  induction 1 as [|x xs Hxs IH Hall]; simpl; constructor; [exact IH|].
  apply Forall_map. exact Hall.
Qed.

(** C9.  GET /messages/{match_id} returns the rows of exactly the
    Message documents whose match_id is the given one, each as often as
    it is stored, in non-decreasing order of creation time. *)
Theorem get_messages_sorted_by_creation (mid : string) (db : DB) :
  exists rows : list (Row Message),
    get_messages mid db = (db, Ok rows)
    /\ Permutation rows
         (map with_id (List.filter (fun d => String.eqb (match_id (body d)) mid)
                                   (messages db)))
    /\ (forall r : Row Message,
           In r rows <->
           exists d, In d (messages db) /\ match_id (body d) = mid /\ r = with_id d)
    /\ StronglySorted
         (fun r1 r2 : Row Message => (row_created_at r1 <= row_created_at r2)%N)
         rows.
Proof.
  eexists. split; [reflexivity|].
  assert (Hperm : Permutation
            (map with_id (sort_by_created_at (List.filter (q_match_id mid) (messages db))))
            (map with_id (List.filter (q_match_id mid) (messages db)))).
  { apply Permutation_map, sort_by_created_at_perm. }
  split; [exact Hperm|]. split.
  - intros r. split.
    + intros Hin. apply (Permutation_in _ Hperm) in Hin.
      apply in_map_iff in Hin as (d & Hr & Hd).
      apply filter_In in Hd as [Hd Hq]. apply String.eqb_eq in Hq.
      exists d. auto.
    + intros (d & Hd & Hq & ->).
      apply (Permutation_in _ (Permutation_sym Hperm)).
      apply in_map, filter_In. split; [exact Hd|].
      apply String.eqb_eq, Hq.
  - apply with_id_sorted, sort_by_created_at_sorted.
Qed.

(** ** Result caps *)

Lemma get_messages_eq (mid : string) (db : DB) :
  get_messages mid db
  = (db, Ok (map with_id
               (sort_by_created_at (List.filter (q_match_id mid) (messages db))))).
Proof. reflexivity. Qed.

Lemma list_matches_eq (owner : string) (db : DB) :
  list_matches owner db
  = (db, Ok (map with_id (List.filter (q_owner owner) (matches db)))).
Proof. reflexivity. Qed.

Lemma firstn_length_le {A : Type} (n : nat) (l : list A) :
  List.length (firstn n l) <= n.
Proof. rewrite length_firstn. apply Nat.le_min_l. Qed.

(** C8, as amended.  GET /pets and GET /announcements return the first
    100 documents that pass the filter and GET /nearby the first 200,
    in store order: all of them when there are no more than the cap,
    the cap's worth otherwise, with nothing that tells the caller more
    were cut off; GET /matches/{owner_id} and GET /messages/{match_id}
    carry no cap and return every document that passes theirs. *)
Theorem list_endpoint_caps (regex_i : string -> string -> bool) (db : DB) :
  (forall sp breed_ min_age max_age gender_ pedigree_ city_ owner_id_,
      exists rows,
        list_pets regex_i sp breed_ min_age max_age gender_ pedigree_ city_ owner_id_ db
        = (db, Ok rows)
        /\ rows = map with_id
                    (firstn 100
                       (List.filter
                          (q_pets regex_i sp breed_ min_age max_age gender_
                                  pedigree_ city_ owner_id_)
                          (pets db)))
        /\ List.length rows
           = Nat.min 100
               (List.length
                  (List.filter
                     (q_pets regex_i sp breed_ min_age max_age gender_
                             pedigree_ city_ owner_id_)
                     (pets db)))
        /\ List.length rows <= 100)
  /\ (forall sp,
         exists rows,
           list_announcements sp db = (db, Ok rows)
           /\ rows = map with_id
                       (firstn 100
                          (List.filter
                             (fun d => match sp with
                                       | Some s => Species_eqb (ann_species (body d)) s
                                       | None => true
                                       end)
                             (announcements db)))
           /\ List.length rows
              = Nat.min 100
                  (List.length
                     (List.filter
                        (fun d => match sp with
                                  | Some s => Species_eqb (ann_species (body d)) s
                                  | None => true
                                  end)
                        (announcements db)))
           /\ List.length rows <= 100)
  /\ (forall sp city_,
         exists rows,
           nearby_pets regex_i sp city_ db = (db, Ok rows)
           /\ rows = map with_id
                       (firstn 200
                          (List.filter
                             (fun d =>
                                Species_eqb (species (body d)) sp
                                && (if truthy city_
                                    then field_regex regex_i
                                           match city_ with Some c => c | None => "" end
                                           (city (body d))
                                    else true))
                             (pets db)))
           /\ List.length rows
              = Nat.min 200
                  (List.length
                     (List.filter
                        (fun d =>
                           Species_eqb (species (body d)) sp
                           && (if truthy city_
                               then field_regex regex_i
                                      match city_ with Some c => c | None => "" end
                                      (city (body d))
                               else true))
                        (pets db)))
           /\ List.length rows <= 200)
  /\ (forall owner,
         exists rows,
           list_matches owner db = (db, Ok rows)
           /\ rows = map with_id (List.filter (q_owner owner) (matches db))
           /\ List.length rows = List.length (List.filter (q_owner owner) (matches db)))
  /\ (forall mid,
         exists rows,
           get_messages mid db = (db, Ok rows)
           /\ rows = map with_id
                       (sort_by_created_at
                          (List.filter (q_match_id mid) (messages db)))
           /\ Permutation rows
                (map with_id (List.filter (q_match_id mid) (messages db)))
           /\ List.length rows
              = List.length (List.filter (q_match_id mid) (messages db))).
Proof.
  split; [|split; [|split; [|split]]].
  - intros. eexists. split; [reflexivity|]. split; [reflexivity|].
    rewrite length_map. split; [apply length_firstn | apply firstn_length_le].
  - intros. eexists. split; [reflexivity|]. split; [reflexivity|].
    rewrite length_map. split; [apply length_firstn | apply firstn_length_le].
  - intros. eexists. split; [reflexivity|]. split; [reflexivity|].
    rewrite length_map. split; [apply length_firstn | apply firstn_length_le].
  - intros. eexists. split; [reflexivity|]. split; [reflexivity|].
    apply length_map.
  - intros. eexists. split; [reflexivity|]. split; [reflexivity|].
    split.
    + apply Permutation_map, sort_by_created_at_perm.
    + rewrite length_map. apply Permutation_length, sort_by_created_at_perm.
Qed.

(** ** The worked run, checked *)

Import Scenario.

Lemma swipe_mutual_like_creates_match_witness :
  no_self_like one_sided = true
  /\ action like_2_1 = like
  /\ has_like P1 P2 one_sided = true
  /\ resolve_pet P2 one_sided = Some pet2
  /\ resolve_pet P1 one_sided = Some pet1
  /\ match_count P2 P1 one_sided = 0
  /\ snd (swipe like_2_1 one_sided) = Ok (StatusMatch M12)
  /\ matches (fst (swipe like_2_1 one_sided))
     = matches one_sided ++ [mkDoc 6%N 0%N (mkMatch P2 P1 O2 O1)].
Proof.
  assert (h1 : no_self_like one_sided = true) by (vm_compute; reflexivity).
  assert (h2 : action like_2_1 = like) by reflexivity.
  assert (h3 : has_like P1 P2 one_sided = true) by (vm_compute; reflexivity).
  assert (h4 : resolve_pet P2 one_sided = Some pet2) by (vm_compute; reflexivity).
  assert (h5 : resolve_pet P1 one_sided = Some pet1) by (vm_compute; reflexivity).
  assert (h6 : match_count P2 P1 one_sided = 0) by (vm_compute; reflexivity).
  repeat (split; [assumption|]).
  exact (proj1 (swipe_mutual_like_creates_match one_sided like_2_1)
               pet2 pet1 h1 h2 h3 h4 h5 h6).
Defined.


Lemma pass_never_matches_witness :
  action pass_2_1 = pass
  /\ liker_pet_id pass_2_1 <> target_pet_id pass_2_1
  /\ has_like P1 P2 one_sided = true
  /\ snd (swipe pass_2_1 one_sided) = Ok StatusRecorded
  /\ matches (fst (swipe pass_2_1 one_sided)) = matches one_sided.
Proof.
  assert (h1 : action pass_2_1 = pass) by reflexivity.
  assert (h2 : liker_pet_id pass_2_1 <> target_pet_id pass_2_1)
    by (vm_compute; discriminate).
  assert (h3 : has_like P1 P2 one_sided = true) by (vm_compute; reflexivity).
  repeat (split; [assumption|]).
  exact (pass_never_matches one_sided pass_2_1 h1 h2).
Defined.

Lemma self_swipe_rejected_witness :
  liker_pet_id like_1_1 = target_pet_id like_1_1
  /\ snd (swipe like_1_1 registered)
     = Raise (HTTPException 400 "Cannot swipe your own pet")
  /\ fst (swipe like_1_1 registered) = registered
  /\ likes (fst (swipe like_1_1 registered)) = likes registered.
Proof.
  assert (h1 : liker_pet_id like_1_1 = target_pet_id like_1_1) by reflexivity.
  split; [assumption|].
  exact (self_swipe_rejected registered like_1_1 h1).
Defined.

Lemma swipe_records_first_witness :
  liker_pet_id like_1_2 <> target_pet_id like_1_2
  /\ swipe like_1_2 registered = check_mutual_like like_1_2 (recorded like_1_2 registered)
  /\ likes (recorded like_1_2 registered)
     = likes registered ++ [mkDoc 4%N 0%N like_1_2]
  /\ likes (fst (swipe like_1_2 registered))
     = likes registered ++ [mkDoc 4%N 0%N like_1_2].
Proof.
  assert (h1 : liker_pet_id like_1_2 <> target_pet_id like_1_2)
    by (vm_compute; discriminate).
  split; [assumption|].
  exact (swipe_records_first registered like_1_2 h1).
Defined.

Lemma missing_pet_soft_fail_witness :
  no_self_like likes_ghost = true
  /\ action like_ghost_2 = like
  /\ has_like P2 ghost likes_ghost = true
  /\ ObjectId.of_string ghost = Some 4095%N
  /\ ObjectId.of_string P2 = Some 3%N
  /\ resolve_pet ghost likes_ghost = None
  /\ snd (swipe like_ghost_2 likes_ghost) = Ok StatusRecorded
  /\ matches (fst (swipe like_ghost_2 likes_ghost)) = matches likes_ghost.
Proof.
  assert (h1 : no_self_like likes_ghost = true) by (vm_compute; reflexivity).
  assert (h2 : action like_ghost_2 = like) by reflexivity.
  assert (h3 : has_like P2 ghost likes_ghost = true) by (vm_compute; reflexivity).
  assert (h4 : ObjectId.of_string ghost = Some 4095%N) by (vm_compute; reflexivity).
  assert (h5 : ObjectId.of_string P2 = Some 3%N) by (vm_compute; reflexivity).
  assert (h6 : resolve_pet ghost likes_ghost = None) by (vm_compute; reflexivity).
  repeat (split; [assumption|]).
  exact (missing_pet_soft_fail likes_ghost like_ghost_2 4095%N 3%N
           h1 h2 h3 h4 h5 (or_introl h6)).
Defined.

(** C6 as it is worded fails on a pet id that is not an identifier
    string: no Pet carries the id "rex", the reverse like is on record,
    and the call raises instead of answering
    [{status: recorded, match: false}]. *)
Lemma missing_pet_counterexample :
  action like_rex_2 = like
  /\ has_like (target_pet_id like_rex_2) (liker_pet_id like_rex_2) likes_rex = true
  /\ forallb (fun p => negb (String.eqb (ObjectId.str (_id p)) (liker_pet_id like_rex_2)))
             (pets likes_rex) = true
  /\ resolve_pet (liker_pet_id like_rex_2) likes_rex = None
  /\ snd (swipe like_rex_2 likes_rex) = Raise (HTTPException 400 "Invalid id format")
  /\ snd (swipe like_rex_2 likes_rex) <> Ok StatusRecorded.
Proof.
  repeat split; try (vm_compute; reflexivity).
  vm_compute. discriminate.
Qed.

Lemma malformed_id_raises_after_recording_witness :
  no_self_like liked_by_rex = true
  /\ action like_1_rex = like
  /\ has_like rex P1 liked_by_rex = true
  /\ ObjectId.of_string rex = None
  /\ snd (swipe like_1_rex liked_by_rex) = Raise (HTTPException 400 "Invalid id format")
  /\ likes (fst (swipe like_1_rex liked_by_rex))
     = likes liked_by_rex ++ [mkDoc 5%N 0%N like_1_rex]
  /\ fst (swipe like_1_rex liked_by_rex) <> liked_by_rex.
Proof.
  assert (h1 : no_self_like liked_by_rex = true) by (vm_compute; reflexivity).
  assert (h2 : action like_1_rex = like) by reflexivity.
  assert (h3 : has_like rex P1 liked_by_rex = true) by (vm_compute; reflexivity).
  assert (h4 : ObjectId.of_string rex = None) by (vm_compute; reflexivity).
  repeat (split; [assumption|]).
  exact (proj1 (malformed_id_raises_after_recording liked_by_rex like_1_rex h1 h2 h3)
               (or_intror h4)).
Defined.

Lemma send_message_guard_witness :
  ObjectId.of_string "nope" = None
  /\ send_message (hello O1 "nope") matched
     = (matched, Raise (HTTPException 400 "Invalid id format"))
  /\ ObjectId.of_string ghost = Some 4095%N
  /\ List.find (q_id 4095%N) (matches matched) = None
  /\ send_message (hello O1 ghost) matched
     = (matched, Raise (HTTPException 404 "Match not found"))
  /\ ObjectId.of_string M12 = Some 6%N
  /\ List.find (q_id 6%N) (matches matched) = Some (mkDoc 6%N 0%N (mkMatch P2 P1 O2 O1))
  /\ send_message (hello "zed" M12) matched
     = (matched, Raise (HTTPException 403 "Not part of this match"))
  /\ snd (send_message (hello O1 M12) matched) = Ok (ObjectId.str 7%N)
  /\ messages (fst (send_message (hello O1 M12) matched))
     = messages matched ++ [mkDoc 7%N 0%N (mkMessage M12 P1 O1 "hello")].
Proof.
  assert (h1 : ObjectId.of_string "nope" = None) by (vm_compute; reflexivity).
  assert (h2 : ObjectId.of_string ghost = Some 4095%N) by (vm_compute; reflexivity).
  assert (h3 : List.find (q_id 4095%N) (matches matched) = None)
    by (vm_compute; reflexivity).
  assert (h4 : ObjectId.of_string M12 = Some 6%N) by (vm_compute; reflexivity).
  assert (h5 : List.find (q_id 6%N) (matches matched)
               = Some (mkDoc 6%N 0%N (mkMatch P2 P1 O2 O1)))
    by (vm_compute; reflexivity).
  assert (h6 : "zed" <> O2) by (vm_compute; discriminate).
  assert (h7 : "zed" <> O1) by (vm_compute; discriminate).
  split; [exact h1|].
  split; [exact (proj1 (send_message_guard (hello O1 "nope") matched) h1)|].
  split; [exact h2|]. split; [exact h3|].
  split; [exact (proj1 (proj2 (send_message_guard (hello O1 ghost) matched))
                       4095%N h2 h3)|].
  split; [exact h4|]. split; [exact h5|].
  split; [exact (proj1 (proj2 (proj2 (send_message_guard (hello "zed" M12) matched)))
                       6%N _ h4 h5 h6 h7)|].
  exact (proj2 (proj2 (proj2 (send_message_guard (hello O1 M12) matched)))
               6%N _ h4 h5 (or_intror eq_refl)).
Defined.

(** C7 as it is worded fails on a match id that is not an identifier
    string: no Match carries the id "nope", and the call raises 400,
    not 404. *)
Lemma send_message_counterexample :
  forallb (fun m => negb (String.eqb (ObjectId.str (_id m)) "nope")) (matches matched)
  = true
  /\ send_message (hello O1 "nope") matched
     = (matched, Raise (HTTPException 400 "Invalid id format"))
  /\ snd (send_message (hello O1 "nope") matched)
     <> Raise (HTTPException 404 "Match not found").
Proof.
  repeat split; try (vm_compute; reflexivity).
  vm_compute. discriminate.
Qed.

(** C8 as it is worded fails on the two endpoints it names: with 201
    messages on one match, and with 201 matches of one owner, every one
    of them comes back. *)
Lemma list_cap_counterexample :
  (exists rows, get_messages M12 chatty = (chatty, Ok rows)
                /\ List.length rows = 201 /\ ~ List.length rows <= 200)
  /\ (exists rows, list_matches O1 popular = (popular, Ok rows)
                   /\ List.length rows = 201 /\ ~ List.length rows <= 200).
Proof.
  split.
  - exists (map with_id
              (sort_by_created_at (List.filter (q_match_id M12) (messages chatty)))).
    split; [exact (get_messages_eq M12 chatty)|].
    assert (Hlen : List.length
                     (map with_id
                        (sort_by_created_at
                           (List.filter (q_match_id M12) (messages chatty)))) = 201)
      by (vm_compute; reflexivity).
    split; [exact Hlen | rewrite Hlen; lia].
  - exists (map with_id (List.filter (q_owner O1) (matches popular))).
    split; [exact (list_matches_eq O1 popular)|].
    assert (Hlen : List.length
                     (map with_id (List.filter (q_owner O1) (matches popular))) = 201)
      by (vm_compute; reflexivity).
    split; [exact Hlen | rewrite Hlen; lia].
Qed.

(** The end-to-end scenario of the swipes: a first like is recorded,
    the like back is a match, the repeated like is recorded again and
    the pair still has one match. *)
Example end_to_end_swipes :
  snd (swipe like_1_2 registered) = Ok StatusRecorded
  /\ snd (swipe like_2_1 one_sided) = Ok (StatusMatch M12)
  /\ snd (swipe like_1_2 matched) = Ok StatusRecorded
  /\ match_count P1 P2 (run history empty_db) = 1.
Proof. repeat split; vm_compute; reflexivity. Qed.

(** The end-to-end scenario of the messages: an owner of the match may
    write, a stranger may not. *)
Example end_to_end_messages :
  snd (send_message (hello O1 M12) matched) = Ok (ObjectId.str 7%N)
  /\ snd (send_message (hello ghost M12) matched)
     = Raise (HTTPException 403 "Not part of this match").
Proof. split; vm_compute; reflexivity. Qed.

(** Identifiers print as 24 digits and read back, in either case. *)
Example object_id_round_trip :
  ObjectId.of_string (ObjectId.str 4095%N) = Some 4095%N
  /\ ObjectId.of_string "000000000000000000000FFF" = Some 4095%N
  /\ ObjectId.of_string "fff" = None.
Proof. repeat split; vm_compute; reflexivity. Qed.

(** The sort is by creation time and keeps the stored order of
    documents created at the same time. *)
Example sort_by_created_at_stable :
  map body (sort_by_created_at
              [mkDoc 1%N 5%N "a"; mkDoc 2%N 2%N "b"; mkDoc 3%N 5%N "c"; mkDoc 4%N 2%N "d"])
  = ["b"; "d"; "a"; "c"].
Proof. reflexivity. Qed.


(** * Beyond the claims *)

(** ** Append-only collections *)

Lemma prefix_of_refl {A : Type} (l : list A) : prefix_of l l.
Proof. exists []. symmetry. apply app_nil_r. Qed.

Lemma prefix_of_snoc {A : Type} (l : list A) (x : A) : prefix_of l (l ++ [x]).
Proof. exists [x]. reflexivity. Qed.

Lemma prefix_of_trans {A : Type} (l1 l2 l3 : list A) :
  prefix_of l1 l2 -> prefix_of l2 l3 -> prefix_of l1 l3.
Proof.
  intros [t1 ->] [t2 ->]. exists (t1 ++ t2). symmetry. apply app_assoc.
Qed.

Lemma extends_refl (db : DB) : extends db db.
Proof. repeat split; apply prefix_of_refl. Qed.

Lemma extends_trans (db1 db2 db3 : DB) :
  extends db1 db2 -> extends db2 db3 -> extends db1 db3.
Proof.
  intros (a1 & a2 & a3 & a4 & a5 & a6 & a7) (b1 & b2 & b3 & b4 & b5 & b6 & b7).
  repeat split; eapply prefix_of_trans; eassumption.
Qed.

Ltac prefixes :=
  repeat split; simpl;
  first [ apply prefix_of_refl | apply prefix_of_snoc
        | eapply prefix_of_trans; [apply prefix_of_snoc | apply prefix_of_snoc] ].

Lemma create_document_extends (c : Collection) (data : Model c) (db : DB) :
  extends db (fst (create_document c data db)).
Proof. destruct c; prefixes. Qed.

Lemma create_owner_eq (o : Owner) (db : DB) :
  create_owner o db =
  if existsb (fun d => String.eqb (email (body d)) (email o)) (owners db)
  then (db, Raise (HTTPException 409 "Owner with this email already exists"))
  else create_document c_owner o db.
Proof.
  unfold create_owner, bind, find_one. cbv beta iota delta [coll Model].
  rewrite is_some_find. destruct (existsb _ _); reflexivity.
Qed.

Lemma create_pet_eq (p : Pet) (db : DB) :
  create_pet p db =
  match ObjectId.of_string (owner_id p) with
  | None => (db, Raise (HTTPException 400 "Invalid id format"))
  | Some i =>
      match List.find (q_id i) (owners db) with
      | None => (db, Raise (HTTPException 400 "Owner not found"))
      | Some _ => create_document c_pet p db
      end
  end.
Proof.
  unfold create_pet, bind, lift, oid, find_one. cbv beta iota delta [coll Model].
  destruct (ObjectId.of_string (owner_id p)) as [i|]; [|reflexivity].
  destruct (List.find (q_id i) (owners db)); reflexivity.
Qed.

Lemma swipe_extends (l : Like) (db : DB) : extends db (fst (swipe l db)).
Proof.
  destruct (String.eqb_spec (liker_pet_id l) (target_pet_id l)) as [Heq|Hne].
  { rewrite (swipe_self l db Heq). apply extends_refl. }
  rewrite (swipe_eq l db Hne).
  destruct (_ && _); [|apply create_document_extends].
  destruct (ObjectId.of_string (liker_pet_id l)); [|apply create_document_extends].
  destruct (ObjectId.of_string (target_pet_id l)); [|apply create_document_extends].
  destruct (List.find _ (pets db)); [|apply create_document_extends].
  destruct (List.find _ (pets db)); [|apply create_document_extends].
  destruct (List.find _ (matches db)); [apply create_document_extends|].
  eapply extends_trans; [|apply create_document_extends].
  apply create_document_extends.
Qed.

Lemma step_extends (e : Event) (db : DB) : extends db (step e db).
Proof.
  destruct e; cbn [step].
  - rewrite create_owner_eq. destruct (existsb _ _);
      [apply extends_refl | apply create_document_extends].
  - rewrite create_pet_eq.
    destruct (ObjectId.of_string _); [|apply extends_refl].
    destruct (List.find _ _); [apply create_document_extends | apply extends_refl].
  - apply swipe_extends.
  - rewrite send_message_eq.
    destruct (ObjectId.of_string _); [|apply extends_refl].
    destruct (List.find _ _); [|apply extends_refl].
    destruct (_ || _); [apply create_document_extends | apply extends_refl].
  - apply (create_document_extends c_announcement).
  - apply (create_document_extends c_verification).
  - prefixes.
Qed.

Lemma run_extends (es : list Event) (db : DB) : extends db (run es db).
Proof.
  revert db. induction es as [|e es IH]; intros db; simpl; [apply extends_refl|].
  eapply extends_trans; [apply step_extends | apply IH].
Qed.

Lemma find_prefix {A : Type} (f : A -> bool) (l l' : list A) (x : A) :
  prefix_of l l' -> List.find f l = Some x -> List.find f l' = Some x.
Proof. intros [t ->] H. rewrite find_app, H. reflexivity. Qed.

Lemma existsb_prefix {A : Type} (f : A -> bool) (l l' : list A) :
  prefix_of l l' -> existsb f l = true -> existsb f l' = true.
Proof. intros [t ->] H. rewrite existsb_app, H. reflexivity. Qed.

Lemma has_like_extends (a b : string) (db db' : DB) :
  extends db db' -> has_like a b db = true -> has_like a b db' = true.
Proof. intros Hext. apply existsb_prefix, Hext. Qed.

Lemma match_count_extends (a b : string) (db db' : DB) :
  extends db db' -> match_count a b db <= match_count a b db'.
Proof.
  intros (_ & _ & _ & [t Ht] & _). unfold match_count.
  rewrite Ht, filter_app, length_app. lia.
Qed.

Lemma match_count_sym (a b : string) (db : DB) :
  match_count a b db = match_count b a db.
Proof.
  unfold match_count. f_equal. apply filter_ext. intros d. apply same_pair_sym.
Qed.

Lemma resolve_pet_extends (s : string) (db db' : DB) (p : Doc Pet) :
  extends db db' -> resolve_pet s db = Some p -> resolve_pet s db' = Some p.
Proof.
  intros Hext. unfold resolve_pet. destruct (ObjectId.of_string s); [|discriminate].
  apply find_prefix, Hext.
Qed.

Lemma resolve_owner_extends (s : string) (db db' : DB) (o : Doc Owner) :
  extends db db' -> resolve_owner s db = Some o -> resolve_owner s db' = Some o.
Proof.
  intros Hext. unfold resolve_owner. destruct (ObjectId.of_string s); [|discriminate].
  apply find_prefix, Hext.
Qed.

Lemma resolve_match_extends (s : string) (db db' : DB) (m : Doc Match) :
  extends db db' -> resolve_match s db = Some m -> resolve_match s db' = Some m.
Proof.
  intros Hext. unfold resolve_match. destruct (ObjectId.of_string s); [|discriminate].
  apply find_prefix, Hext.
Qed.

(** X1.  No request removes or rewrites a stored document: after any
    run, every collection is the one before with documents appended. *)
Theorem run_append_only (es : list Event) (db : DB) :
  extends db (run es db).
Proof. apply run_extends. Qed.

(** X2.  A like on record stays on record through any run: no later
    request, a pass by the same pet included, takes it back. *)
Theorem like_never_retracted (es : list Event) (db : DB) (a b : string) :
  has_like a b db = true -> has_like a b (run es db) = true.
Proof. apply has_like_extends, run_extends. Qed.

(** X3.  Once a match is on record for two pet id strings, no swipe
    that names those same two strings, in either direction and after
    any run, reports a match again. *)
Theorem matched_pair_never_rematched
  (es : list Event) (db : DB) (a b : string) (l : Like) (mid : string) :
  match_count a b db <> 0 ->
  (liker_pet_id l = a /\ target_pet_id l = b)
  \/ (liker_pet_id l = b /\ target_pet_id l = a) ->
  snd (swipe l (run es db)) <> Ok (StatusMatch mid).
Proof.
  intros Hsome Hpair Hresp.
  apply status_match_inv in Hresp as (_ & _ & _ & _ & Hzero & _).
  pose proof (match_count_extends a b db (run es db) (run_extends es db)) as Hmono.
  destruct Hpair as [[Ha Hb]|[Ha Hb]]; rewrite Ha, Hb in Hzero.
  - lia.
  - rewrite match_count_sym in Hzero. lia.
Qed.

(** ** What one request appends *)

Lemma step_owners (e : Event) (db : DB) :
  owners (step e db) = owners db
  \/ exists o,
      e = POST_owners o
      /\ existsb (fun d => String.eqb (email (body d)) (email o)) (owners db) = false
      /\ owners (step e db) = owners db ++ [mkDoc (next_id db) (clock db) o].
Proof.
  destruct e; cbn [step].
  - rewrite create_owner_eq.
    destruct (existsb _ _) eqn:Hdup; [left; reflexivity|].
    right. exists o. repeat split. exact Hdup.
  - left. rewrite create_pet_eq.
    destruct (ObjectId.of_string _); [|reflexivity].
    destruct (List.find _ _); reflexivity.
  - left. destruct (swipe_extends l db) as (_ & _ & _ & _).
    destruct (String.eqb_spec (liker_pet_id l) (target_pet_id l)) as [Heq|Hne].
    { rewrite (swipe_self l db Heq). reflexivity. }
    rewrite (swipe_eq l db Hne).
    destruct (_ && _); [|reflexivity].
    destruct (ObjectId.of_string (liker_pet_id l)); [|reflexivity].
    destruct (ObjectId.of_string (target_pet_id l)); [|reflexivity].
    destruct (List.find _ (pets db)); [|reflexivity].
    destruct (List.find _ (pets db)); [|reflexivity].
    destruct (List.find _ (matches db)); reflexivity.
  - left. rewrite send_message_eq.
    destruct (ObjectId.of_string _); [|reflexivity].
    destruct (List.find _ _); [|reflexivity].
    destruct (_ || _); reflexivity.
  - left. reflexivity.
  - left. reflexivity.
  - left. reflexivity.
Qed.

Lemma step_pets (e : Event) (db : DB) :
  pets (step e db) = pets db
  \/ exists p o,
      e = POST_pets p
      /\ resolve_owner (owner_id p) db = Some o
      /\ pets (step e db) = pets db ++ [mkDoc (next_id db) (clock db) p].
Proof.
  destruct e; cbn [step].
  - left. rewrite create_owner_eq. destruct (existsb _ _); reflexivity.
  - rewrite create_pet_eq.
    destruct (ObjectId.of_string _) as [i|] eqn:Hi; [|left; reflexivity].
    destruct (List.find _ _) as [o|] eqn:Ho; [|left; reflexivity].
    right. exists p, o. unfold resolve_owner. rewrite Hi, Ho. repeat split.
  - left.
    destruct (String.eqb_spec (liker_pet_id l) (target_pet_id l)) as [Heq|Hne].
    { rewrite (swipe_self l db Heq). reflexivity. }
    rewrite (swipe_eq l db Hne).
    destruct (_ && _); [|reflexivity].
    destruct (ObjectId.of_string (liker_pet_id l)); [|reflexivity].
    destruct (ObjectId.of_string (target_pet_id l)); [|reflexivity].
    destruct (List.find _ (pets db)); [|reflexivity].
    destruct (List.find _ (pets db)); [|reflexivity].
    destruct (List.find _ (matches db)); reflexivity.
  - left. rewrite send_message_eq.
    destruct (ObjectId.of_string _); [|reflexivity].
    destruct (List.find _ _); [|reflexivity].
    destruct (_ || _); reflexivity.
  - left. reflexivity.
  - left. reflexivity.
  - left. reflexivity.
Qed.

Lemma step_matches (e : Event) (db : DB) :
  matches (step e db) = matches db
  \/ exists l lp tp,
      e = POST_swipe l
      /\ liker_pet_id l <> target_pet_id l
      /\ action l = like
      /\ has_like (target_pet_id l) (liker_pet_id l) db = true
      /\ resolve_pet (liker_pet_id l) db = Some lp
      /\ resolve_pet (target_pet_id l) db = Some tp
      /\ likes (step e db) = likes db ++ [mkDoc (next_id db) (clock db) l]
      /\ matches (step e db)
         = matches db
           ++ [mkDoc (N.succ (next_id db)) (clock db)
                     (mkMatch (liker_pet_id l) (target_pet_id l)
                              (owner_id (body lp)) (owner_id (body tp)))].
Proof.
  destruct e; cbn [step];
    try (left; apply (proj1 (create_owner_frame _ _)));
    try (left; apply (proj1 (create_pet_frame _ _)));
    try (left; apply (proj1 (send_message_frame _ _)));
    try (left; reflexivity).
  destruct (String.eqb_spec (liker_pet_id l) (target_pet_id l)) as [Heq|Hne].
  { left. rewrite (swipe_self l db Heq). reflexivity. }
  rewrite (swipe_eq l db Hne).
  destruct (action l) eqn:Hact; simpl; [|left; reflexivity].
  destruct (has_like _ _ db) eqn:Hrev; [|left; reflexivity].
  destruct (ObjectId.of_string (liker_pet_id l)) as [li|] eqn:Hli;
    [|left; reflexivity].
  destruct (ObjectId.of_string (target_pet_id l)) as [ti|] eqn:Hti;
    [|left; reflexivity].
  destruct (List.find (q_id li) (pets db)) as [lp|] eqn:Hlp; [|left; reflexivity].
  destruct (List.find (q_id ti) (pets db)) as [tp|] eqn:Htp; [|left; reflexivity].
  destruct (List.find _ (matches db)); [left; reflexivity|].
  right. exists l, lp, tp. unfold resolve_pet. rewrite Hact, Hrev, Hli, Hti, Hlp, Htp.
  repeat split. exact Hne.
Qed.

Lemma step_messages (e : Event) (db : DB) :
  messages (step e db) = messages db
  \/ exists payload m,
      e = POST_messages payload
      /\ resolve_match (sm_match_id payload) db = Some m
      /\ String.eqb (sm_sender_owner_id payload) (owner_a_id (body m))
         || String.eqb (sm_sender_owner_id payload) (owner_b_id (body m)) = true
      /\ messages (step e db)
         = messages db ++ [mkDoc (next_id db) (clock db) (Message_of payload)].
Proof.
  destruct e; cbn [step].
  - left. rewrite create_owner_eq. destruct (existsb _ _); reflexivity.
  - left. rewrite create_pet_eq.
    destruct (ObjectId.of_string _); [|reflexivity].
    destruct (List.find _ _); reflexivity.
  - left.
    destruct (String.eqb_spec (liker_pet_id l) (target_pet_id l)) as [Heq|Hne].
    { rewrite (swipe_self l db Heq). reflexivity. }
    rewrite (swipe_eq l db Hne).
    destruct (_ && _); [|reflexivity].
    destruct (ObjectId.of_string (liker_pet_id l)); [|reflexivity].
    destruct (ObjectId.of_string (target_pet_id l)); [|reflexivity].
    destruct (List.find _ (pets db)); [|reflexivity].
    destruct (List.find _ (pets db)); [|reflexivity].
    destruct (List.find _ (matches db)); reflexivity.
  - rewrite send_message_eq.
    destruct (ObjectId.of_string _) as [i|] eqn:Hi; [|left; reflexivity].
    destruct (List.find _ _) as [m|] eqn:Hm; [|left; reflexivity].
    destruct (_ || _) eqn:Hown; [|left; reflexivity].
    right. exists payload, m. unfold resolve_match. rewrite Hi, Hm.
    repeat split. exact Hown.
  - left. reflexivity.
  - left. reflexivity.
  - left. reflexivity.
Qed.

Lemma forallb_mono {A : Type} (f g : A -> bool) (l : list A) :
  (forall x, f x = true -> g x = true) ->
  forallb f l = true -> forallb g l = true.
Proof.
  intros Hfg H. rewrite forallb_forall in *. intros x Hx. apply Hfg, H, Hx.
Qed.

(** An invariant of single requests is an invariant of runs. *)
Lemma run_invariant (I : DB -> Prop) :
  (forall e db, I db -> I (step e db)) ->
  forall es db, I db -> I (run es db).
Proof.
  intros Hstep es. induction es as [|e es IH]; intros db H; simpl; [exact H|].
  apply IH, Hstep, H.
Qed.

(** ** Owners *)

Lemma NoDup_snoc {A : Type} (l : list A) (x : A) :
  NoDup l -> ~ In x l -> NoDup (l ++ [x]).
Proof.
  induction 1 as [|y l Hy Hl IH]; intros Hx; simpl.
  - constructor; [intros []|constructor].
  - constructor.
    + rewrite in_app_iff. intros [H|[H|[]]]; [contradiction|].
      apply Hx. left. symmetry. exact H.
    + apply IH. intros H. apply Hx. right. exact H.
Qed.

Lemma email_taken (o : Owner) (l : list (Doc Owner)) :
  existsb (fun d => String.eqb (email (body d)) (email o)) l = true
  <-> In (email o) (map (fun d => email (body d)) l).
Proof.
  rewrite existsb_exists, in_map_iff. split.
  - intros (d & Hd & He). apply String.eqb_eq in He. exists d. auto.
  - intros (d & He & Hd). exists d. split; [exact Hd|]. apply String.eqb_eq, He.
Qed.

Lemma step_emails_distinct (e : Event) (db : DB) :
  emails_distinct db -> emails_distinct (step e db).
Proof.
  unfold emails_distinct. intros Hnd.
  destruct (step_owners e db) as [->|(o & _ & Hfree & ->)]; [exact Hnd|].
  rewrite map_app. simpl. apply NoDup_snoc; [exact Hnd|].
  intros Hin. apply email_taken in Hin. congruence.
Qed.

(** X4.  Emails stay unique: a run that starts from a store in which
    no two owners share an email, the empty store among them, ends in
    such a store. *)
Theorem owner_emails_stay_unique (es : list Event) (db : DB) :
  emails_distinct db -> emails_distinct (run es db).
Proof. apply (run_invariant emails_distinct), step_emails_distinct. Qed.

(** X5.  Registering the same owner twice in a row always ends in a
    409 conflict, whatever the store was, and the second request writes
    nothing. *)
Theorem create_owner_twice_conflicts (o : Owner) (db : DB) :
  create_owner o (fst (create_owner o db))
  = (fst (create_owner o db),
     Raise (HTTPException 409 "Owner with this email already exists")).
Proof.
  rewrite (create_owner_eq o db).
  destruct (existsb _ (owners db)) eqn:Hdup; simpl.
  - rewrite create_owner_eq, Hdup. reflexivity.
  - rewrite create_owner_eq. simpl.
    rewrite existsb_app. simpl. rewrite String.eqb_refl, orb_true_r. reflexivity.
Qed.

(** ** Pets *)

Lemma step_pets_have_owners (e : Event) (db : DB) :
  pets_have_owners db = true -> pets_have_owners (step e db) = true.
Proof.
  intros Hinv. pose proof (step_extends e db) as Hext.
  assert (Hold : forallb (fun p => is_some (resolve_owner (owner_id (body p)) (step e db)))
                         (pets db) = true).
  { eapply forallb_mono; [|exact Hinv]. intros p Hp. simpl in Hp.
    destruct (resolve_owner (owner_id (body p)) db) as [o|] eqn:Ho; [|discriminate].
    rewrite (resolve_owner_extends _ _ _ _ Hext Ho). reflexivity. }
  unfold pets_have_owners.
  destruct (step_pets e db) as [->|(p & o & _ & Ho & ->)]; [exact Hold|].
  rewrite forallb_app, Hold. simpl.
  rewrite (resolve_owner_extends _ _ _ _ Hext Ho). reflexivity.
Qed.

(** X6.  Every pet has its owner in the store: a run that starts from
    a store where each pet's owner_id resolves to an Owner ends in such
    a store. *)
Theorem pets_keep_their_owners (es : list Event) (db : DB) :
  pets_have_owners db = true -> pets_have_owners (run es db) = true.
Proof.
  apply (run_invariant (fun s => pets_have_owners s = true)), step_pets_have_owners.
Qed.

(** ** Matches *)

Lemma step_matches_distinct_ids (e : Event) (db : DB) :
  matches_distinct_ids db = true -> matches_distinct_ids (step e db) = true.
Proof.
  unfold matches_distinct_ids. intros Hinv.
  destruct (step_matches e db)
    as [->|(l & lp & tp & _ & Hne & _ & _ & _ & _ & _ & ->)]; [exact Hinv|].
  rewrite forallb_app, Hinv. simpl.
  apply String.eqb_neq in Hne. rewrite Hne. reflexivity.
Qed.

Lemma step_matches_backed_by_likes (e : Event) (db : DB) :
  matches_backed_by_likes db = true -> matches_backed_by_likes (step e db) = true.
Proof.
  intros Hinv. pose proof (step_extends e db) as Hext.
  assert (Hold : forallb (fun m => has_like (pet_a_id (body m)) (pet_b_id (body m))
                                            (step e db)
                                   && has_like (pet_b_id (body m)) (pet_a_id (body m))
                                               (step e db))
                         (matches db) = true).
  { eapply forallb_mono; [|exact Hinv]. intros m Hm. simpl in Hm.
    apply andb_true_iff in Hm as [H1 H2].
    rewrite (has_like_extends _ _ _ _ Hext H1), (has_like_extends _ _ _ _ Hext H2).
    reflexivity. }
  unfold matches_backed_by_likes.
  destruct (step_matches e db)
    as [->|(l & lp & tp & _ & Hne & Hact & Hrev & _ & _ & Hlikes & ->)];
    [exact Hold|].
  rewrite forallb_app, Hold. simpl.
  rewrite (has_like_extends _ _ _ _ Hext Hrev), !andb_true_r.
  unfold has_like. rewrite Hlikes, existsb_app. simpl.
  rewrite !String.eqb_refl, Hact. simpl. apply orb_true_r.
Qed.

Lemma pet_owned_by_extends (pid owner : string) (db db' : DB) :
  extends db db' -> pet_owned_by pid owner db = true -> pet_owned_by pid owner db' = true.
Proof.
  intros Hext. unfold pet_owned_by.
  destruct (resolve_pet pid db) as [p|] eqn:Hp; [|discriminate].
  rewrite (resolve_pet_extends _ _ _ _ Hext Hp). exact (fun H => H).
Qed.

Lemma step_matches_carry_owners (e : Event) (db : DB) :
  matches_carry_owners db = true -> matches_carry_owners (step e db) = true.
Proof.
  intros Hinv. pose proof (step_extends e db) as Hext.
  assert (Hold : forallb (fun m => pet_owned_by (pet_a_id (body m)) (owner_a_id (body m))
                                                (step e db)
                                   && pet_owned_by (pet_b_id (body m))
                                                   (owner_b_id (body m)) (step e db))
                         (matches db) = true).
  { eapply forallb_mono; [|exact Hinv]. intros m Hm. simpl in Hm.
    apply andb_true_iff in Hm as [H1 H2].
    rewrite (pet_owned_by_extends _ _ _ _ Hext H1),
            (pet_owned_by_extends _ _ _ _ Hext H2).
    reflexivity. }
  unfold matches_carry_owners.
  destruct (step_matches e db)
    as [->|(l & lp & tp & _ & _ & _ & _ & Hlp & Htp & _ & ->)];
    [exact Hold|].
  rewrite forallb_app, Hold. simpl. unfold pet_owned_by.
  rewrite (resolve_pet_extends _ _ _ _ Hext Hlp), (resolve_pet_extends _ _ _ _ Hext Htp).
  rewrite !String.eqb_refl. reflexivity.
Qed.

(** X7.  No match carries one string as both [pet_a_id] and
    [pet_b_id]: a run from a store whose matches all have two different
    pet id strings ends in such a store. *)
Theorem match_ids_stay_distinct (es : list Event) (db : DB) :
  matches_distinct_ids db = true -> matches_distinct_ids (run es db) = true.
Proof.
  apply (run_invariant (fun s => matches_distinct_ids s = true)),
    step_matches_distinct_ids.
Qed.

(** X8.  A match is only ever created on mutual interest: a run from a
    store in which every match has a like on record in both directions
    ends in such a store. *)
Theorem matches_stay_backed_by_likes (es : list Event) (db : DB) :
  matches_backed_by_likes db = true -> matches_backed_by_likes (run es db) = true.
Proof.
  apply (run_invariant (fun s => matches_backed_by_likes s = true)),
    step_matches_backed_by_likes.
Qed.

(** X9.  The owner ids copied into a match stay right: a run from a
    store in which every match carries the owner_id of the Pet each of
    its pet ids resolves to ends in such a store. *)
Theorem matches_keep_their_owners (es : list Event) (db : DB) :
  matches_carry_owners db = true -> matches_carry_owners (run es db) = true.
Proof.
  apply (run_invariant (fun s => matches_carry_owners s = true)),
    step_matches_carry_owners.
Qed.

(** ** Messages *)

Lemma step_messages_from_participants (e : Event) (db : DB) :
  messages_from_participants db = true ->
  messages_from_participants (step e db) = true.
Proof.
  intros Hinv. pose proof (step_extends e db) as Hext.
  assert (Hold : forallb
            (fun msg =>
               match resolve_match (match_id (body msg)) (step e db) with
               | Some m =>
                   String.eqb (sender_owner_id (body msg)) (owner_a_id (body m))
                   || String.eqb (sender_owner_id (body msg)) (owner_b_id (body m))
               | None => false
               end)
            (messages db) = true).
  { eapply forallb_mono; [|exact Hinv]. intros msg Hmsg. simpl in Hmsg.
    destruct (resolve_match (match_id (body msg)) db) as [m|] eqn:Hm; [|discriminate].
    rewrite (resolve_match_extends _ _ _ _ Hext Hm). exact Hmsg. }
  unfold messages_from_participants.
  destruct (step_messages e db) as [->|(payload & m & _ & Hm & Hown & ->)];
    [exact Hold|].
  rewrite forallb_app, Hold. simpl.
  rewrite (resolve_match_extends _ _ _ _ Hext Hm). simpl. rewrite Hown. reflexivity.
Qed.

(** X10.  Only participants write: a run from a store in which every
    message is on a Match of the store and sent by one of that match's
    two owners ends in such a store. *)
Theorem messages_stay_from_participants (es : list Event) (db : DB) :
  messages_from_participants db = true ->
  messages_from_participants (run es db) = true.
Proof.
  apply (run_invariant (fun s => messages_from_participants s = true)),
    step_messages_from_participants.
Qed.

(** ** Failures *)

(** X11.  Outside [swipe], a request that raises has written nothing:
    POST /owners, POST /pets, POST /messages and GET /owners/{id} leave
    the store exactly as it was whenever they fail. *)
Theorem failed_request_writes_nothing (db : DB) (e : HTTPError) :
  (forall o, snd (create_owner o db) = Raise e -> fst (create_owner o db) = db)
  /\ (forall p, snd (create_pet p db) = Raise e -> fst (create_pet p db) = db)
  /\ (forall payload,
         snd (send_message payload db) = Raise e -> fst (send_message payload db) = db)
  /\ (forall owner, snd (get_owner owner db) = Raise e -> fst (get_owner owner db) = db).
Proof.
  split; [|split; [|split]].
  - intros o. rewrite create_owner_eq.
    destruct (existsb _ _); [reflexivity | discriminate].
  - intros p. rewrite create_pet_eq.
    destruct (ObjectId.of_string _); [|reflexivity].
    destruct (List.find _ _); [discriminate | reflexivity].
  - intros payload. rewrite send_message_eq.
    destruct (ObjectId.of_string _); [|reflexivity].
    destruct (List.find _ _); [|reflexivity].
    destruct (_ || _); [discriminate | reflexivity].
  - intros owner _. apply (proj1 (reads_frame (fun _ _ => true) db)).
Qed.

(** X12.  [swipe] fails in two ways only, both with status 400: the
    self-swipe, which writes nothing, and a like that meets a reverse
    like while one of the pet ids is not a well-formed identifier, which
    leaves the Like written.  Nothing else makes it raise. *)
Theorem swipe_failure_modes (l : Like) (db : DB) (e : HTTPError) :
  snd (swipe l db) = Raise e ->
  (liker_pet_id l = target_pet_id l
   /\ e = HTTPException 400 "Cannot swipe your own pet"
   /\ fst (swipe l db) = db)
  \/ (liker_pet_id l <> target_pet_id l
      /\ e = HTTPException 400 "Invalid id format"
      /\ action l = like
      /\ has_like (target_pet_id l) (liker_pet_id l) db = true
      /\ (ObjectId.of_string (liker_pet_id l) = None
          \/ ObjectId.of_string (target_pet_id l) = None)
      /\ fst (swipe l db) = recorded l db).
Proof.
  destruct (String.eqb_spec (liker_pet_id l) (target_pet_id l)) as [Heq|Hne].
  { rewrite (swipe_self l db Heq). simpl. intros H. injection H as <-.
    left. repeat split. exact Heq. }
  rewrite (swipe_eq l db Hne). intros H. right.
  destruct (action l); simpl in H |- *; [|discriminate].
  destruct (has_like _ _ db); [|discriminate].
  destruct (ObjectId.of_string (liker_pet_id l)).
  - destruct (ObjectId.of_string (target_pet_id l)).
    + destruct (List.find _ (pets db)); [|discriminate].
      destruct (List.find _ (pets db)); [|discriminate].
      destruct (List.find _ (matches db)); discriminate.
    + injection H as <-. repeat split; auto.
  - injection H as <-. repeat split; auto.
Qed.

(** X13.  A swipe between two different pets that meets no reverse
    like is recorded and answered [{status: recorded, match: false}]
    without any look at the pet ids: they need not be well formed nor
    name a pet. *)
Theorem first_swipe_is_recorded_unchecked (l : Like) (db : DB) :
  liker_pet_id l <> target_pet_id l ->
  has_like (target_pet_id l) (liker_pet_id l) db = false ->
  swipe l db = (recorded l db, Ok StatusRecorded).
Proof.
  intros Hne Hrev. rewrite (swipe_eq l db Hne), Hrev, andb_false_r. reflexivity.
Qed.

(** ** Repeating a swipe *)

Lemma swipe_pets (l : Like) (db : DB) : pets (fst (swipe l db)) = pets db.
Proof.
  destruct (step_pets (POST_swipe l) db) as [H|(p & o & Habs & _)];
    [exact H | discriminate].
Qed.

Lemma has_like_after_swipe (l : Like) (db : DB) :
  has_like (target_pet_id l) (liker_pet_id l) (fst (swipe l db))
  = has_like (target_pet_id l) (liker_pet_id l) db.
Proof.
  destruct (String.eqb_spec (liker_pet_id l) (target_pet_id l)) as [Heq|Hne].
  { rewrite (swipe_self l db Heq). reflexivity. }
  unfold has_like. rewrite (swipe_likes l db Hne), existsb_app. simpl.
  apply String.eqb_neq in Hne. rewrite Hne. simpl.
  apply orb_false_r.
Qed.

Lemma repeated_swipe_not_match (l : Like) (db : DB) (mid : string) :
  snd (swipe l (fst (swipe l db))) <> Ok (StatusMatch mid).
Proof.
  intros Hresp.
  apply status_match_inv in Hresp as (Hne & Hact & Hrev & (lp & tp & Hlp & Htp) & Hzero & _).
  rewrite has_like_after_swipe in Hrev.
  unfold resolve_pet in Hlp, Htp. rewrite swipe_pets in Hlp, Htp.
  revert Hzero. rewrite (swipe_eq l db Hne), Hact, Hrev. simpl.
  destruct (ObjectId.of_string (liker_pet_id l)); [|discriminate].
  destruct (ObjectId.of_string (target_pet_id l)); [|discriminate].
  rewrite Hlp, Htp.
  destruct (List.find _ (matches db)) eqn:Hdup; simpl.
  - intros Hzero. apply match_count_zero in Hzero. unfold recorded in Hzero.
    simpl in Hzero. congruence.
  - unfold match_count. simpl. rewrite match_count_snoc.
    unfold same_pair at 2. simpl. rewrite !String.eqb_refl. simpl. lia.
Qed.

(** X14.  Sending the same swipe again right away never reports a
    match: whatever the first call did, the repeat is answered
    [{status: recorded, match: false}] or raises. *)
Theorem repeated_swipe_never_matches (l : Like) (db : DB) :
  snd (swipe l (fst (swipe l db))) = Ok StatusRecorded
  \/ exists e, snd (swipe l (fst (swipe l db))) = Raise e.
Proof.
  pose proof (repeated_swipe_not_match l db) as Hnot.
  destruct (snd (swipe l (fst (swipe l db)))) as [[mid|]|e].
  - exfalso. exact (Hnot mid eq_refl).
  - left. reflexivity.
  - right. exists e. reflexivity.
Qed.

(** X15.  Likes are appended, never merged: swiping the same Like twice
    between two different pets leaves two Like documents with the same
    fields. *)
Theorem reswipe_appends_duplicate (l : Like) (db : DB) :
  liker_pet_id l <> target_pet_id l ->
  likes (fst (swipe l (fst (swipe l db))))
  = likes db ++ [mkDoc (next_id db) (clock db) l;
                 mkDoc (next_id (fst (swipe l db))) (clock (fst (swipe l db))) l].
Proof.
  intros Hne. rewrite (swipe_likes l _ Hne), (swipe_likes l db Hne), <- app_assoc.
  reflexivity.
Qed.

(** ** Sending and reading messages *)

Lemma send_message_ok (payload : SendMessage) (db : DB) (s : string) :
  snd (send_message payload db) = Ok s ->
  s = ObjectId.str (next_id db)
  /\ fst (send_message payload db)
     = fst (create_document c_message (Message_of payload) db).
Proof.
  rewrite send_message_eq.
  destruct (ObjectId.of_string _); [|discriminate].
  destruct (List.find _ _); [|discriminate].
  destruct (_ || _); [|discriminate].
  simpl. intros H. injection H as <-. split; reflexivity.
Qed.

(** X16.  A message that was accepted is in the listing of the match id
    it was sent under, with the id the call returned, and in the listing
    of no other match id: those are what they were. *)
Theorem sent_message_is_listed (payload : SendMessage) (db : DB) (s : string) :
  snd (send_message payload db) = Ok s ->
  (exists rows,
      get_messages (sm_match_id payload) (fst (send_message payload db))
      = (fst (send_message payload db), Ok rows)
      /\ In (mkRow s (clock db) (Message_of payload)) rows)
  /\ (forall mid,
         mid <> sm_match_id payload ->
         snd (get_messages mid (fst (send_message payload db)))
         = snd (get_messages mid db)).
Proof.
  intros Hok. apply send_message_ok in Hok as [-> ->]. split.
  - eexists. split; [apply get_messages_eq|].
    change (mkRow (ObjectId.str (next_id db)) (clock db) (Message_of payload))
      with (with_id (mkDoc (next_id db) (clock db) (Message_of payload))).
    apply in_map.
    apply (Permutation_in _ (Permutation_sym (sort_by_created_at_perm _))).
    apply filter_In. split.
    + simpl. apply in_app_iff. right. left. reflexivity.
    + unfold q_match_id. simpl. apply String.eqb_refl.
  - intros mid Hmid. rewrite !get_messages_eq. simpl.
    rewrite filter_app. simpl. unfold q_match_id at 2. simpl.
    assert (Hneq : String.eqb (sm_match_id payload) mid = false).
    { apply String.eqb_neq. congruence. }
    rewrite Hneq, app_nil_r. reflexivity.
Qed.

(** ** Listing matches *)

(** X17.  A match that was just reported is listed under both owner
    ids it carries: GET /matches called with the [owner_id] string
    stored in the liker's Pet, and with the one stored in the target's
    Pet, each return the new Match under the id of the response. *)
Theorem new_match_listed_for_both_owners (l : Like) (db : DB) (mid : string) :
  snd (swipe l db) = Ok (StatusMatch mid) ->
  exists lp tp,
    resolve_pet (liker_pet_id l) db = Some lp
    /\ resolve_pet (target_pet_id l) db = Some tp
    /\ (exists rows,
           list_matches (owner_id (body lp)) (fst (swipe l db))
           = (fst (swipe l db), Ok rows)
           /\ In (mkRow mid (clock db)
                        (mkMatch (liker_pet_id l) (target_pet_id l)
                                 (owner_id (body lp)) (owner_id (body tp)))) rows)
    /\ (exists rows,
           list_matches (owner_id (body tp)) (fst (swipe l db))
           = (fst (swipe l db), Ok rows)
           /\ In (mkRow mid (clock db)
                        (mkMatch (liker_pet_id l) (target_pet_id l)
                                 (owner_id (body lp)) (owner_id (body tp)))) rows).
Proof.
  intros Hresp.
  destruct (status_match_inv l db mid Hresp)
    as (Hne & Hact & Hrev & (lp & tp & Hlp & Htp) & Hzero & ->).
  exists lp, tp. split; [exact Hlp|]. split; [exact Htp|].
  apply resolve_pet_some in Hlp as (li & Hli & Hfl).
  apply resolve_pet_some in Htp as (ti & Hti & Hft).
  apply match_count_zero in Hzero.
  rewrite (swipe_eq l db Hne), Hact, Hrev, Hli, Hti, Hfl, Hft, Hzero. simpl.
  split; eexists; (split; [apply list_matches_eq|]); simpl;
    rewrite filter_app, map_app; apply in_app_iff; right;
    unfold q_owner; simpl; rewrite String.eqb_refl, ?orb_true_r;
    left; reflexivity.
Qed.

(** ** Listing pets *)

Lemma filter_none {A : Type} (f : A -> bool) (l : list A) :
  (forall x, f x = false) -> List.filter f l = [].
Proof.
  intros Hf. induction l as [|x xs IH]; simpl; [reflexivity|].
  rewrite Hf. exact IH.
Qed.

(** X18.  An empty string in [breed], [city] or [owner_id] filters
    nothing: GET /pets answers as if the parameter were absent, and so
    does GET /nearby for [city]. *)
Theorem empty_filter_is_no_filter
  (regex_i : string -> string -> bool) (db : DB) (sp : Species)
  (breed_ : option string) (min_age max_age : option Z) (gender_ : option Gender)
  (pedigree_ : option bool) (city_ owner_id_ : option string) :
  list_pets regex_i sp (Some "") min_age max_age gender_ pedigree_ city_ owner_id_ db
  = list_pets regex_i sp None min_age max_age gender_ pedigree_ city_ owner_id_ db
  /\ list_pets regex_i sp breed_ min_age max_age gender_ pedigree_ (Some "") owner_id_ db
     = list_pets regex_i sp breed_ min_age max_age gender_ pedigree_ None owner_id_ db
  /\ list_pets regex_i sp breed_ min_age max_age gender_ pedigree_ city_ (Some "") db
     = list_pets regex_i sp breed_ min_age max_age gender_ pedigree_ city_ None db
  /\ nearby_pets regex_i sp (Some "") db = nearby_pets regex_i sp None db.
Proof. repeat split. Qed.

(** X19.  Age bounds that cross select nothing: with [min_age] above
    [max_age], GET /pets returns the empty list. *)
Theorem crossed_age_bounds_select_nothing
  (regex_i : string -> string -> bool) (db : DB) (sp : Species)
  (breed_ : option string) (lo hi : Z) (gender_ : option Gender)
  (pedigree_ : option bool) (city_ owner_id_ : option string) :
  (hi < lo)%Z ->
  list_pets regex_i sp breed_ (Some lo) (Some hi) gender_ pedigree_ city_ owner_id_ db
  = (db, Ok []).
Proof.
  intros Hcross. unfold list_pets, bind, get_documents, ret.
  rewrite filter_none; [reflexivity|].
  intros d. apply not_true_is_false. unfold q_pets. intros H.
  repeat (apply andb_true_iff in H as [H ?]).
  match goal with
  | H1 : Z.leb lo _ = true, H2 : Z.leb _ hi = true |- _ =>
      apply Z.leb_le in H1, H2; lia
  end.
Qed.

(** X20.  With only a species, or a species and a city, GET /pets
    returns the first 100 of what GET /nearby returns for the same
    species and city: the coordinates and the radius of /nearby play no
    part. *)
Theorem list_pets_is_head_of_nearby
  (regex_i : string -> string -> bool) (db : DB) (sp : Species)
  (city_ : option string) :
  exists near,
    nearby_pets regex_i sp city_ db = (db, Ok near)
    /\ list_pets regex_i sp None None None None None city_ None db
       = (db, Ok (firstn 100 near)).
Proof.
  eexists. split; [reflexivity|].
  unfold list_pets, bind, get_documents, ret. cbv beta iota delta [coll Model].
  rewrite firstn_map, firstn_firstn. simpl Nat.min.
  do 4 f_equal. apply filter_ext. intros d. unfold q_pets. simpl.
  rewrite !andb_true_r. reflexivity.
Qed.






(** ** Identifiers *)

Lemma hex_digit_char (d : N) :
  (d < 16)%N -> ObjectId.hex_digit (ObjectId.hex_char d) = Some d.
Proof.
  intros Hd.
  assert (H : (d = 0 \/ d = 1 \/ d = 2 \/ d = 3 \/ d = 4 \/ d = 5 \/ d = 6 \/ d = 7
               \/ d = 8 \/ d = 9 \/ d = 10 \/ d = 11 \/ d = 12 \/ d = 13 \/ d = 14
               \/ d = 15)%N) by lia.
  repeat (destruct H as [->|H]; [reflexivity|]). subst d. reflexivity.
Qed.

Lemma length_hex_of (k : nat) (n : N) (acc : string) :
  String.length (ObjectId.hex_of k n acc) = k + String.length acc.
Proof.
  revert n acc. induction k as [|k IH]; intros n acc; simpl; [reflexivity|].
  rewrite IH. simpl. lia.
Qed.

Lemma hex_value_hex_of (k : nat) (n : N) (acc : string) (a : N) :
  ObjectId.hex_value (ObjectId.hex_of k n acc) a
  = ObjectId.hex_value acc (a * 16 ^ N.of_nat k + n mod 16 ^ N.of_nat k)%N.
Proof.
  revert n acc a. induction k as [|k IH]; intros n acc a.
  - simpl. rewrite N.mod_1_r, N.mul_1_r, N.add_0_r. reflexivity.
  - cbn [ObjectId.hex_of]. rewrite IH. cbn [ObjectId.hex_value].
    rewrite hex_digit_char by (apply N.mod_lt; lia).
    f_equal. rewrite Nat2N.inj_succ, N.pow_succ_r'.
    rewrite (N.Div0.mod_mul_r n 16 (16 ^ N.of_nat k)). lia.
Qed.

Lemma of_string_str (i : ObjectId.t) :
  (i < 16 ^ 24)%N -> ObjectId.of_string (ObjectId.str i) = Some i.
Proof.
  intros Hi. unfold ObjectId.of_string, ObjectId.str.
  rewrite length_hex_of. simpl Nat.eqb. cbv iota.
  rewrite hex_value_hex_of. cbn [ObjectId.hex_value].
  change (N.of_nat 24) with 24%N. rewrite N.mod_small by exact Hi.
  reflexivity.
Qed.

Lemma ids_below_spec (db : DB) :
  ids_below db = true <-> forall i, In i (all_ids db) -> (i < next_id db)%N.
Proof.
  unfold ids_below. rewrite forallb_forall. split; intros H i Hi.
  - apply N.ltb_lt, H, Hi.
  - apply N.ltb_lt, H, Hi.
Qed.

Lemma all_ids_create (c : Collection) (data : Model c) (db : DB) (i : ObjectId.t) :
  In i (all_ids (fst (create_document c data db))) ->
  In i (all_ids db) \/ i = next_id db.
Proof.
  unfold all_ids. destruct c; simpl;
    rewrite ?map_app, ?in_app_iff; simpl; intuition auto.
Qed.

Lemma create_document_ids_below (c : Collection) (data : Model c) (db : DB) :
  ids_below db = true -> ids_below (fst (create_document c data db)) = true.
Proof.
  rewrite !ids_below_spec. intros H i Hi.
  apply all_ids_create in Hi as [Hi| ->].
  - specialize (H i Hi). destruct c; simpl; lia.
  - destruct c; simpl; lia.
Qed.

Lemma step_ids_below (e : Event) (db : DB) :
  ids_below db = true -> ids_below (step e db) = true.
Proof.
  intros H. destruct e; cbn [step].
  - rewrite create_owner_eq. destruct (existsb _ _);
      [exact H | apply create_document_ids_below, H].
  - rewrite create_pet_eq.
    destruct (ObjectId.of_string _); [|exact H].
    destruct (List.find _ _); [apply create_document_ids_below, H | exact H].
  - destruct (String.eqb_spec (liker_pet_id l) (target_pet_id l)) as [Heq|Hne].
    { rewrite (swipe_self l db Heq). exact H. }
    pose proof (create_document_ids_below c_like l db H) as Hrec.
    rewrite (swipe_eq l db Hne).
    destruct (_ && _); [|exact Hrec].
    destruct (ObjectId.of_string (liker_pet_id l)); [|exact Hrec].
    destruct (ObjectId.of_string (target_pet_id l)); [|exact Hrec].
    destruct (List.find _ (pets db)); [|exact Hrec].
    destruct (List.find _ (pets db)); [|exact Hrec].
    destruct (List.find _ (matches db)); [exact Hrec|].
    apply (create_document_ids_below c_match), Hrec.
  - rewrite send_message_eq.
    destruct (ObjectId.of_string _); [|exact H].
    destruct (List.find _ _); [|exact H].
    destruct (_ || _); [apply create_document_ids_below, H | exact H].
  - apply (create_document_ids_below c_announcement), H.
  - apply (create_document_ids_below c_verification), H.
  - exact H.
Qed.

(** Every run keeps the identifiers in use below the next one. *)
Lemma run_ids_below (es : list Event) (db : DB) :
  ids_below db = true -> ids_below (run es db) = true.
Proof.
  apply (run_invariant (fun s => ids_below s = true)), step_ids_below.
Qed.

Lemma find_fresh {A : Type} (l : list (Doc A)) (d : Doc A) :
  (forall x, In x l -> _id x <> _id d) ->
  List.find (q_id (_id d)) (l ++ [d]) = Some d.
Proof.
  intros Hfresh. rewrite find_app.
  destruct (List.find (q_id (_id d)) l) as [x|] eqn:Hx.
  - apply find_some in Hx as [Hin Hq]. apply N.eqb_eq in Hq.
    exfalso. exact (Hfresh x Hin Hq).
  - simpl. unfold q_id. rewrite N.eqb_refl. reflexivity.
Qed.

Lemma in_all_ids_owners (db : DB) (d : Doc Owner) :
  In d (owners db) -> In (_id d) (all_ids db).
Proof.
  intros H. unfold all_ids. apply in_app_iff. left. apply in_map, H.
Qed.

Lemma in_all_ids_matches (db : DB) (d : Doc Match) :
  In d (matches db) -> In (_id d) (all_ids db).
Proof.
  intros H. unfold all_ids. rewrite !in_app_iff.
  right. right. right. left. apply in_map, H.
Qed.

Lemma create_owner_ok (o : Owner) (db : DB) (s : string) :
  snd (create_owner o db) = Ok s ->
  s = ObjectId.str (next_id db)
  /\ fst (create_owner o db) = fst (create_document c_owner o db).
Proof.
  rewrite create_owner_eq. destruct (existsb _ _); [discriminate|].
  simpl. intros H. injection H as <-. split; reflexivity.
Qed.

(** X22.  The id POST /owners returns fetches the owner just created:
    GET /owners/{id} on the resulting store returns that owner under
    that id.  The store has handed out its identifiers in order and
    has not run out of 24-digit ones. *)
Theorem created_owner_can_be_fetched (o : Owner) (db : DB) (s : string) :
  ids_below db = true ->
  (next_id db < 16 ^ 24)%N ->
  snd (create_owner o db) = Ok s ->
  get_owner s (fst (create_owner o db))
  = (fst (create_owner o db), Ok (mkRow s (clock db) o)).
Proof.
  intros Hids Hlt Hok. apply create_owner_ok in Hok as [-> ->].
  unfold get_owner, bind, lift, oid, find_one.
  rewrite (of_string_str _ Hlt). cbv beta iota delta [coll Model].
  change (owners (fst (create_document c_owner o db)))
    with (owners db ++ [mkDoc (next_id db) (clock db) o]).
  pose proof (find_fresh (owners db) (mkDoc (next_id db) (clock db) o)) as Hfind.
  cbn [_id] in Hfind. rewrite Hfind; [reflexivity|].
  intros x Hx. apply in_all_ids_owners in Hx.
  rewrite ids_below_spec in Hids. specialize (Hids _ Hx). lia.
Qed.

(** X23.  The id POST /owners returns is accepted by POST /pets: a pet
    registered under it right after is created. *)
Theorem created_owner_can_register_pet (o : Owner) (p : Pet) (db : DB) (s : string) :
  (next_id db < 16 ^ 24)%N ->
  snd (create_owner o db) = Ok s ->
  owner_id p = s ->
  snd (create_pet p (fst (create_owner o db)))
  = Ok (ObjectId.str (next_id (fst (create_owner o db))))
  /\ pets (fst (create_pet p (fst (create_owner o db))))
     = pets db ++ [mkDoc (N.succ (next_id db)) (clock db) p].
Proof.
  intros Hlt Hok Hp. apply create_owner_ok in Hok as [-> ->].
  rewrite create_pet_eq, Hp, (of_string_str _ Hlt).
  change (owners (fst (create_document c_owner o db)))
    with (owners db ++ [mkDoc (next_id db) (clock db) o]).
  rewrite find_app.
  destruct (List.find (q_id (next_id db)) (owners db)).
  - split; reflexivity.
  - cbn [List.find]. unfold q_id. cbn [_id]. rewrite N.eqb_refl.
    split; reflexivity.
Qed.

(** X24.  The match id a swipe reports is accepted by POST /messages
    right after, from a sender whose [sender_owner_id] is, as a string,
    the [owner_id] stored in the liker's Pet or in the target's Pet:
    the message is created. *)
Theorem new_match_accepts_messages
  (l : Like) (db : DB) (mid : string) (payload : SendMessage) :
  ids_below db = true ->
  (N.succ (next_id db) < 16 ^ 24)%N ->
  snd (swipe l db) = Ok (StatusMatch mid) ->
  sm_match_id payload = mid ->
  pet_owned_by (liker_pet_id l) (sm_sender_owner_id payload) db = true
  \/ pet_owned_by (target_pet_id l) (sm_sender_owner_id payload) db = true ->
  snd (send_message payload (fst (swipe l db)))
  = Ok (ObjectId.str (next_id (fst (swipe l db))))
  /\ messages (fst (send_message payload (fst (swipe l db))))
     = messages db
       ++ [mkDoc (next_id (fst (swipe l db))) (clock db) (Message_of payload)].
Proof.
  intros Hids Hlt Hresp Hmid Hsender.
  destruct (status_match_inv l db mid Hresp)
    as (Hne & Hact & Hrev & (lp & tp & Hlp & Htp) & Hzero & ->).
  unfold pet_owned_by in Hsender. rewrite Hlp, Htp in Hsender.
  apply resolve_pet_some in Hlp as (li & Hli & Hfl).
  apply resolve_pet_some in Htp as (ti & Hti & Hft).
  apply match_count_zero in Hzero.
  rewrite (swipe_eq l db Hne), Hact, Hrev, Hli, Hti, Hfl, Hft, Hzero. simpl fst.
  rewrite send_message_eq, Hmid, (of_string_str _ Hlt). simpl matches.
  pose proof (find_fresh (matches db)
                (mkDoc (N.succ (next_id db)) (clock db)
                       (mkMatch (liker_pet_id l) (target_pet_id l)
                                (owner_id (body lp)) (owner_id (body tp)))))
    as Hfind.
  cbn [_id] in Hfind. rewrite Hfind.
  - simpl.
    assert (Hown : String.eqb (sm_sender_owner_id payload) (owner_id (body lp))
                   || String.eqb (sm_sender_owner_id payload) (owner_id (body tp))
                   = true).
    { apply orb_true_iff. destruct Hsender as [H|H]; [left|right];
        rewrite String.eqb_sym; exact H. }
    rewrite Hown. split; reflexivity.
  - intros x Hx. apply in_all_ids_matches in Hx.
    rewrite ids_below_spec in Hids. specialize (Hids _ Hx). lia.
Qed.

(** ** The further properties on the worked run *)

Lemma like_never_retracted_witness :
  has_like P1 P2 one_sided = true
  /\ has_like P1 P2 (run second_thoughts one_sided) = true.
Proof.
  assert (h1 : has_like P1 P2 one_sided = true) by (vm_compute; reflexivity).
  split; [exact h1|].
  exact (like_never_retracted second_thoughts one_sided P1 P2 h1).
Defined.

Lemma matched_pair_never_rematched_witness :
  match_count P2 P1 matched <> 0
  /\ snd (swipe like_1_2 (run second_thoughts matched)) <> Ok (StatusMatch M12).
Proof.
  assert (h1 : match_count P2 P1 matched <> 0) by (vm_compute; discriminate).
  split; [exact h1|].
  exact (matched_pair_never_rematched second_thoughts matched P2 P1 like_1_2 M12
           h1 (or_intror (conj eq_refl eq_refl))).
Defined.

Lemma owner_emails_stay_unique_witness :
  emails_distinct empty_db /\ emails_distinct (run history empty_db).
Proof.
  assert (h1 : emails_distinct empty_db) by constructor.
  split; [exact h1|].
  exact (owner_emails_stay_unique history empty_db h1).
Defined.

Lemma pets_keep_their_owners_witness :
  pets_have_owners registered = true
  /\ pets_have_owners (run second_thoughts registered) = true.
Proof.
  assert (h1 : pets_have_owners registered = true) by (vm_compute; reflexivity).
  split; [exact h1|].
  exact (pets_keep_their_owners second_thoughts registered h1).
Defined.

Lemma match_ids_stay_distinct_witness :
  matches_distinct_ids matched = true
  /\ matches_distinct_ids (run second_thoughts matched) = true.
Proof.
  assert (h1 : matches_distinct_ids matched = true) by (vm_compute; reflexivity).
  split; [exact h1|].
  exact (match_ids_stay_distinct second_thoughts matched h1).
Defined.

Lemma matches_stay_backed_by_likes_witness :
  matches_backed_by_likes matched = true
  /\ matches_backed_by_likes (run second_thoughts matched) = true.
Proof.
  assert (h1 : matches_backed_by_likes matched = true) by (vm_compute; reflexivity).
  split; [exact h1|].
  exact (matches_stay_backed_by_likes second_thoughts matched h1).
Defined.

Lemma matches_keep_their_owners_witness :
  matches_carry_owners matched = true
  /\ matches_carry_owners (run second_thoughts matched) = true.
Proof.
  assert (h1 : matches_carry_owners matched = true) by (vm_compute; reflexivity).
  split; [exact h1|].
  exact (matches_keep_their_owners second_thoughts matched h1).
Defined.

Lemma messages_stay_from_participants_witness :
  messages_from_participants greeted = true
  /\ messages_from_participants (run second_thoughts greeted) = true.
Proof.
  assert (h1 : messages_from_participants greeted = true) by (vm_compute; reflexivity).
  split; [exact h1|].
  exact (messages_stay_from_participants second_thoughts greeted h1).
Defined.

Lemma failed_request_writes_nothing_witness :
  snd (create_owner owner1 registered)
  = Raise (HTTPException 409 "Owner with this email already exists")
  /\ fst (create_owner owner1 registered) = registered
  /\ snd (create_pet (a_dog ghost "Stray") registered)
     = Raise (HTTPException 400 "Owner not found")
  /\ fst (create_pet (a_dog ghost "Stray") registered) = registered.
Proof.
  assert (h1 : snd (create_owner owner1 registered)
               = Raise (HTTPException 409 "Owner with this email already exists"))
    by (vm_compute; reflexivity).
  assert (h2 : snd (create_pet (a_dog ghost "Stray") registered)
               = Raise (HTTPException 400 "Owner not found"))
    by (vm_compute; reflexivity).
  split; [exact h1|].
  split; [exact (proj1 (failed_request_writes_nothing registered _) owner1 h1)|].
  split; [exact h2|].
  exact (proj1 (proj2 (failed_request_writes_nothing registered _))
               (a_dog ghost "Stray") h2).
Defined.

Lemma swipe_failure_modes_witness :
  snd (swipe like_rex_2 likes_rex) = Raise (HTTPException 400 "Invalid id format")
  /\ ((liker_pet_id like_rex_2 = target_pet_id like_rex_2
       /\ HTTPException 400 "Invalid id format"
          = HTTPException 400 "Cannot swipe your own pet"
       /\ fst (swipe like_rex_2 likes_rex) = likes_rex)
      \/ (liker_pet_id like_rex_2 <> target_pet_id like_rex_2
          /\ HTTPException 400 "Invalid id format"
             = HTTPException 400 "Invalid id format"
          /\ action like_rex_2 = like
          /\ has_like (target_pet_id like_rex_2) (liker_pet_id like_rex_2) likes_rex
             = true
          /\ (ObjectId.of_string (liker_pet_id like_rex_2) = None
              \/ ObjectId.of_string (target_pet_id like_rex_2) = None)
          /\ fst (swipe like_rex_2 likes_rex) = recorded like_rex_2 likes_rex)).
Proof.
  assert (h1 : snd (swipe like_rex_2 likes_rex)
               = Raise (HTTPException 400 "Invalid id format"))
    by (vm_compute; reflexivity).
  split; [exact h1|].
  exact (swipe_failure_modes like_rex_2 likes_rex _ h1).
Defined.

Lemma first_swipe_is_recorded_unchecked_witness :
  liker_pet_id like_rex_2 <> target_pet_id like_rex_2
  /\ has_like (target_pet_id like_rex_2) (liker_pet_id like_rex_2) registered = false
  /\ swipe like_rex_2 registered = (recorded like_rex_2 registered, Ok StatusRecorded).
Proof.
  assert (h1 : liker_pet_id like_rex_2 <> target_pet_id like_rex_2)
    by (vm_compute; discriminate).
  assert (h2 : has_like (target_pet_id like_rex_2) (liker_pet_id like_rex_2) registered
               = false) by (vm_compute; reflexivity).
  split; [exact h1|]. split; [exact h2|].
  exact (first_swipe_is_recorded_unchecked like_rex_2 registered h1 h2).
Defined.

Lemma reswipe_appends_duplicate_witness :
  liker_pet_id like_1_2 <> target_pet_id like_1_2
  /\ likes (fst (swipe like_1_2 (fst (swipe like_1_2 registered))))
     = likes registered
       ++ [mkDoc (next_id registered) (clock registered) like_1_2;
           mkDoc (next_id (fst (swipe like_1_2 registered)))
                 (clock (fst (swipe like_1_2 registered))) like_1_2].
Proof.
  assert (h1 : liker_pet_id like_1_2 <> target_pet_id like_1_2)
    by (vm_compute; discriminate).
  split; [exact h1|].
  exact (reswipe_appends_duplicate like_1_2 registered h1).
Defined.

Lemma sent_message_is_listed_witness :
  snd (send_message (hello O1 M12) matched) = Ok (ObjectId.str 7%N)
  /\ (exists rows,
         get_messages (sm_match_id (hello O1 M12))
                      (fst (send_message (hello O1 M12) matched))
         = (fst (send_message (hello O1 M12) matched), Ok rows)
         /\ In (mkRow (ObjectId.str 7%N) (clock matched) (Message_of (hello O1 M12)))
               rows).
Proof.
  assert (h1 : snd (send_message (hello O1 M12) matched) = Ok (ObjectId.str 7%N))
    by (vm_compute; reflexivity).
  split; [exact h1|].
  exact (proj1 (sent_message_is_listed (hello O1 M12) matched _ h1)).
Defined.

Lemma new_match_listed_for_both_owners_witness :
  snd (swipe like_2_1 one_sided) = Ok (StatusMatch M12)
  /\ exists lp tp,
      resolve_pet (liker_pet_id like_2_1) one_sided = Some lp
      /\ resolve_pet (target_pet_id like_2_1) one_sided = Some tp
      /\ (exists rows,
             list_matches (owner_id (body lp)) (fst (swipe like_2_1 one_sided))
             = (fst (swipe like_2_1 one_sided), Ok rows)
             /\ In (mkRow M12 (clock one_sided)
                          (mkMatch (liker_pet_id like_2_1) (target_pet_id like_2_1)
                                   (owner_id (body lp)) (owner_id (body tp)))) rows)
      /\ (exists rows,
             list_matches (owner_id (body tp)) (fst (swipe like_2_1 one_sided))
             = (fst (swipe like_2_1 one_sided), Ok rows)
             /\ In (mkRow M12 (clock one_sided)
                          (mkMatch (liker_pet_id like_2_1) (target_pet_id like_2_1)
                                   (owner_id (body lp)) (owner_id (body tp)))) rows).
Proof.
  assert (h1 : snd (swipe like_2_1 one_sided) = Ok (StatusMatch M12))
    by (vm_compute; reflexivity).
  split; [exact h1|].
  exact (new_match_listed_for_both_owners like_2_1 one_sided M12 h1).
Defined.

Lemma crossed_age_bounds_select_nothing_witness :
  (2 < 5)%Z
  /\ list_pets (fun _ _ => true) dog None (Some 5%Z) (Some 2%Z) None None None None
               registered
     = (registered, Ok []).
Proof.
  assert (h1 : (2 < 5)%Z) by reflexivity.
  split; [exact h1|].
  exact (crossed_age_bounds_select_nothing (fun _ _ => true) registered dog None
           5%Z 2%Z None None None None h1).
Defined.


Lemma created_owner_can_be_fetched_witness :
  ids_below registered = true
  /\ (next_id registered < 16 ^ 24)%N
  /\ snd (create_owner (mkOwner "Cy" "cy@example.org" None false false) registered)
     = Ok (ObjectId.str 4%N)
  /\ get_owner (ObjectId.str 4%N)
               (fst (create_owner (mkOwner "Cy" "cy@example.org" None false false)
                                  registered))
     = (fst (create_owner (mkOwner "Cy" "cy@example.org" None false false) registered),
        Ok (mkRow (ObjectId.str 4%N) (clock registered)
                  (mkOwner "Cy" "cy@example.org" None false false))).
Proof.
  assert (h1 : ids_below registered = true) by (vm_compute; reflexivity).
  assert (h2 : (next_id registered < 16 ^ 24)%N) by (vm_compute; reflexivity).
  assert (h3 : snd (create_owner (mkOwner "Cy" "cy@example.org" None false false)
                                 registered)
               = Ok (ObjectId.str 4%N)) by (vm_compute; reflexivity).
  split; [exact h1|]. split; [exact h2|]. split; [exact h3|].
  exact (created_owner_can_be_fetched _ registered _ h1 h2 h3).
Defined.

Lemma created_owner_can_register_pet_witness :
  (next_id registered < 16 ^ 24)%N
  /\ snd (create_owner (mkOwner "Cy" "cy@example.org" None false false) registered)
     = Ok (ObjectId.str 4%N)
  /\ owner_id (a_dog (ObjectId.str 4%N) "Pup") = ObjectId.str 4%N
  /\ snd (create_pet (a_dog (ObjectId.str 4%N) "Pup")
            (fst (create_owner (mkOwner "Cy" "cy@example.org" None false false)
                               registered)))
     = Ok (ObjectId.str
             (next_id (fst (create_owner
                              (mkOwner "Cy" "cy@example.org" None false false)
                              registered))))
  /\ pets (fst (create_pet (a_dog (ObjectId.str 4%N) "Pup")
                  (fst (create_owner (mkOwner "Cy" "cy@example.org" None false false)
                                     registered))))
     = pets registered
       ++ [mkDoc (N.succ (next_id registered)) (clock registered)
                 (a_dog (ObjectId.str 4%N) "Pup")].
Proof.
  assert (h1 : (next_id registered < 16 ^ 24)%N) by (vm_compute; reflexivity).
  assert (h2 : snd (create_owner (mkOwner "Cy" "cy@example.org" None false false)
                                 registered)
               = Ok (ObjectId.str 4%N)) by (vm_compute; reflexivity).
  assert (h3 : owner_id (a_dog (ObjectId.str 4%N) "Pup") = ObjectId.str 4%N)
    by reflexivity.
  split; [exact h1|]. split; [exact h2|]. split; [exact h3|].
  exact (created_owner_can_register_pet _ _ registered _ h1 h2 h3).
Defined.

Lemma new_match_accepts_messages_witness :
  ids_below one_sided = true
  /\ (N.succ (next_id one_sided) < 16 ^ 24)%N
  /\ snd (swipe like_2_1 one_sided) = Ok (StatusMatch M12)
  /\ sm_match_id (hello O1 M12) = M12
  /\ pet_owned_by (target_pet_id like_2_1) (sm_sender_owner_id (hello O1 M12)) one_sided
     = true
  /\ snd (send_message (hello O1 M12) (fst (swipe like_2_1 one_sided)))
     = Ok (ObjectId.str (next_id (fst (swipe like_2_1 one_sided))))
  /\ messages (fst (send_message (hello O1 M12) (fst (swipe like_2_1 one_sided))))
     = messages one_sided
       ++ [mkDoc (next_id (fst (swipe like_2_1 one_sided))) (clock one_sided)
                 (Message_of (hello O1 M12))].
Proof.
  assert (h1 : ids_below one_sided = true) by (vm_compute; reflexivity).
  assert (h2 : (N.succ (next_id one_sided) < 16 ^ 24)%N) by (vm_compute; reflexivity).
  assert (h3 : snd (swipe like_2_1 one_sided) = Ok (StatusMatch M12))
    by (vm_compute; reflexivity).
  assert (h4 : sm_match_id (hello O1 M12) = M12) by reflexivity.
  assert (h5 : pet_owned_by (target_pet_id like_2_1)
                            (sm_sender_owner_id (hello O1 M12)) one_sided = true)
    by (vm_compute; reflexivity).
  split; [exact h1|]. split; [exact h2|]. split; [exact h3|]. split; [exact h4|].
  split; [exact h5|].
  exact (new_match_accepts_messages like_2_1 one_sided M12 (hello O1 M12)
           h1 h2 h3 h4 (or_intror h5)).
Defined.


